(** * godal, vector.go: handles, field snapshots and typed field access

    A shallow embedding of the Go code of [vector.go].  Go functions become
    computations in a small state-and-panic monad.  The state holds the
    objects the Go code allocates (geometries and features behind pointers),
    the state of the wrapped native library, and the native calls made so
    far.

    Everything the file calls but does not define (the C functions of GDAL
    and of godal's C shim, and a few Go helpers declared in other files of
    the package) is gathered in one interface, [Outside]; the properties are
    proved for every implementation of it.  A small reference implementation,
    [RefLib], is used to run the code on concrete inputs. *)

From stdpp Require Import base numbers list strings gmap.
From Stdlib Require Import Floats.SpecFloat Init.Byte.

Open Scope string_scope.
Open Scope Z_scope.

(** ** Go and C data *)

(** A C pointer used as an opaque handle; [0] is [NULL] / Go's [nil]. *)
Definition Handle := Z.
Definition nilH : Handle := 0.

(** Go's [float64] and C's [double]. *)
Definition float64 := spec_float.
Definition float_zero : float64 := S754_zero false.

(** A Go slice: [None] is the nil slice, [Some l] a slice with elements [l]. *)
Definition slice (A : Type) := option (list A).

Definition len {A} (s : slice A) : Z :=
  match s with
  | None => 0
  | Some l => Z.of_nat (length l)
  end.

Definition elems {A} (s : slice A) : list A :=
  match s with
  | None => []
  | Some l => l
  end.

(** A C array returned by the native side: [None] is a [NULL] pointer,
    [Some m] points at the cells [m]. *)
Definition CArray (A : Type) := option (list A).

(** A location of a Go object; Go pointers that may be nil are [option loc]. *)
Definition loc := nat.

(** A Go [error]: the message of [errors.New]; a nil error is [None]. *)
Definition error := string.

(** Conversion to C's 32-bit [int], as in [C.int(x)]. *)
Definition wrap32 (z : Z) : Z := (z + 2 ^ 31) `mod` 2 ^ 32 - 2 ^ 31.

(** The address of a Go [var x int] handed to the native side as a pointer to
    a C [int] (an [unsafe.Pointer] cast): the native side stores a 32-bit
    value in the first four bytes of the zeroed 64-bit [x].  On the 64-bit
    little-endian platforms [x] then holds that value zero-extended. *)
Definition cint_in_goint (c : Z) : Z := c `mod` 2 ^ 32.

(** ** time.Time

    A [time.Time] is kept as the civil date and clock it shows in its own
    location, its nanoseconds and that location; these are what [Year],
    [Month], ..., [Second] return. *)

Inductive Location :=
| UTC
| FixedZone (name : string) (offset : Z).

Record Time := {
  t_year : Z;
  t_month : Z;
  t_day : Z;
  t_hour : Z;
  t_minute : Z;
  t_second : Z;
  t_nsec : Z;
  t_loc : Location
}.

(** [time.Time{}]: January 1, year 1, 00:00:00.000000000 UTC. *)
Definition zero_time : Time :=
  {| t_year := 1; t_month := 1; t_day := 1; t_hour := 0; t_minute := 0;
     t_second := 0; t_nsec := 0; t_loc := UTC |}.





(** [time.Date(y, m, d, h, mi, s, ns, loc)].  Go normalises components that
    are out of range (month 13, second 60, ...); the embedding keeps them as
    given, which is Go's result whenever they are [civil]. *)
Definition time_Date (y m d h mi s ns : Z) (l : Location) : Time :=
  {| t_year := y; t_month := m; t_day := d; t_hour := h; t_minute := mi;
     t_second := s; t_nsec := ns; t_loc := l |}.

(** ** Field kinds and dynamically typed values *)

(** [OGRFieldType], GDAL's field type enumeration. *)
Inductive OGRFieldType :=
| OFTInteger | OFTIntegerList | OFTReal | OFTRealList | OFTString
| OFTStringList | OFTWideString | OFTWideStringList | OFTBinary | OFTDate
| OFTTime | OFTDateTime | OFTInteger64 | OFTInteger64List.

(** [FieldType]; its constants are declared in another file of the package. *)
Inductive FieldType :=
| FTInt | FTReal | FTString | FTInt64 | FTIntList | FTRealList | FTStringList
| FTBinary | FTDate | FTTime | FTDateTime | FTInt64List | FTUnknown.

#[global] Instance FieldType_eq_dec : EqDecision FieldType.
Proof. solve_decision. Defined.

(** The types of the constraint [FieldValueType]. *)
Inductive GoType :=
| TInt | TInt64 | TFloat64 | TString | TBytes | TTime
| TInts | TInt64s | TFloat64s | TStrings.

#[global] Instance GoType_eq_dec : EqDecision GoType.
Proof. solve_decision. Defined.

(** A value of type [any]: the nil interface, or a value with its dynamic
    type. *)
Inductive GoValue :=
| VNil
| VInt (z : Z)
| VInt64 (z : Z)
| VFloat64 (f : float64)
| VString (s : string)
| VBytes (b : slice byte)
| VTime (t : Time)
| VInts (l : slice Z)
| VInt64s (l : slice Z)
| VFloat64s (l : slice float64)
| VStrings (l : slice string).

Definition dyn_type (v : GoValue) : option GoType :=
  match v with
  | VNil => None
  | VInt _ => Some TInt
  | VInt64 _ => Some TInt64
  | VFloat64 _ => Some TFloat64
  | VString _ => Some TString
  | VBytes _ => Some TBytes
  | VTime _ => Some TTime
  | VInts _ => Some TInts
  | VInt64s _ => Some TInt64s
  | VFloat64s _ => Some TFloat64s
  | VStrings _ => Some TStrings
  end.

(** [var empty FVT]. *)
Definition zero_value (T : GoType) : GoValue :=
  match T with
  | TInt => VInt 0
  | TInt64 => VInt64 0
  | TFloat64 => VFloat64 float_zero
  | TString => VString ""
  | TBytes => VBytes None
  | TTime => VTime zero_time
  | TInts => VInts None
  | TInt64s => VInt64s None
  | TFloat64s => VFloat64s None
  | TStrings => VStrings None
  end.

(** ** The Go structs of vector.go *)

Record Geometry := { isOwned : bool; g_handle : Handle }.
Record Feature := { f_handle : Handle }.
Record Dataset := { cHandle : Handle }.

Record Field := {
  index : Z;
  name : string;
  isSet : bool;
  ftype : FieldType;
  val : GoValue
}.

(** [Fields], a slice of [Field]. *)
Definition Fields := slice Field.

(** [Geometry{}] and [Feature{}]. *)
#[global] Instance Geometry_inhabited : Inhabited Geometry :=
  populate {| isOwned := false; g_handle := nilH |}.
#[global] Instance Feature_inhabited : Inhabited Feature :=
  populate {| f_handle := nilH |}.

(** [FieldValueQuerier[FVT]]: the type parameter and the bound feature. *)
Record FieldValueQuerier := { FVT : GoType; srcFeature : option loc }.

(** [rasterizeGeometryOpts], as far as [RasterizeGeometry] reads it. *)
Record rasterizeGeometryOpts := {
  bands : slice Z;
  values : slice float64;
  allTouched : Z
}.

(** A [RasterizeGeometryOption]: its [setRasterizeGeometryOpt] method. *)
Definition RasterizeGeometryOption := rasterizeGeometryOpts → rasterizeGeometryOpts.

(** ** The error-bridging context *)

Inductive Severity := SevDebug | SevWarning | SevError | SevFatal.

Definition sev_rank (s : Severity) : Z :=
  match s with SevDebug => 1 | SevWarning => 2 | SevError => 3 | SevFatal => 4 end.

Record ErrorEvent := { ev_severity : Severity; ev_code : Z; ev_message : string }.

Definition fails (threshold : Severity) (e : ErrorEvent) : bool :=
  bool_decide (sev_rank threshold ≤ sev_rank (ev_severity e)).

(** Modelled from the spec: [createCGOContext] and [cgc.close] are declared in
    a file of the package that is not under src/.  Closing the context drains
    the events captured during the native call and yields a failure when one
    of them has a severity at or above the threshold (Error by default), with
    the offending messages concatenated; handlers observe the events and do
    not decide the outcome. *)
Definition cgc_close (events : list ErrorEvent) : option error :=
  match filter (λ e, fails SevError e = true) events with
  | [] => None
  | bad => Some (String.concat "; " (map ev_message bad))
  end.

(** ** What vector.go calls and does not define *)

(** The out-parameters and the result of [OGR_F_GetFieldAsDateTime]. *)
Record DateTimeOut := {
  dt_ret : Z;
  dt_year : Z; dt_month : Z; dt_day : Z;
  dt_hour : Z; dt_minute : Z; dt_second : Z;
  dt_tzflag : Z
}.

(** One constructor per C function called from vector.go, with the arguments
    of the call, and one for [ds.Bands()], a Go method of the package that
    vector.go calls and another file defines. *)
Inductive NCall :=
| OGR_G_Area (g : Handle)
| OGR_G_GetGeometryCount (g : Handle)
| OGR_G_GetGeometryType (g : Handle)
| OGR_G_Contains (g other : Handle)
| OGR_G_IsEmpty (g : Handle)
| OGR_G_IsValid (g : Handle)
| OGR_G_DestroyGeometry (g : Handle)
| godal_OGR_G_GetGeometryRef (g : Handle) (i : Z)
| godal_OGR_G_Simplify (g : Handle) (tolerance : float64)
| godal_OGR_G_Buffer (g : Handle) (distance : float64) (segments : Z)
| godal_OGR_G_Difference (g other : Handle)
| godal_OGR_G_Union (g other : Handle)
| godal_OGR_G_Intersects (g other : Handle)
| godalExportGeometryWKT (g : Handle)
| godalNewGeometryFromWKB (wkb : list byte) (n : Z) (sr : Handle)
| godalRasterizeGeometry (ds g : Handle) (bnds : list Z) (n : Z)
    (vals : list float64) (touched : Z)
| OGR_F_GetGeometryRef (f : Handle)
| OGR_F_Destroy (f : Handle)
| OGR_F_GetFieldCount (f : Handle)
| OGR_F_GetFieldDefnRef (f : Handle) (i : Z)
| OGR_Fld_GetNameRef (defn : Handle)
| OGR_Fld_GetType (defn : Handle)
| OGR_F_IsFieldSet (f : Handle) (i : Z)
| OGR_F_GetFieldAsInteger64 (f : Handle) (i : Z)
| OGR_F_GetFieldAsDouble (f : Handle) (i : Z)
| OGR_F_GetFieldAsString (f : Handle) (i : Z)
| OGR_F_GetFieldAsDateTime (f : Handle) (i : Z)
| OGR_F_GetFieldAsIntegerList (f : Handle) (i : Z)
| OGR_F_GetFieldAsInteger64List (f : Handle) (i : Z)
| OGR_F_GetFieldAsDoubleList (f : Handle) (i : Z)
| OGR_F_GetFieldAsStringList (f : Handle) (i : Z)
| OGR_F_GetFieldAsBinary (f : Handle) (i : Z)
| OGR_F_SetFieldInteger (f : Handle) (i v : Z)
| OGR_F_SetFieldInteger64 (f : Handle) (i v : Z)
| OGR_F_SetFieldDouble (f : Handle) (i : Z) (v : float64)
| OGR_F_SetFieldString (f : Handle) (i : Z) (v : string)
| OGR_F_SetFieldDateTime (f : Handle) (i y m d h mi s tz : Z)
| OGR_F_SetFieldIntegerList (f : Handle) (i n : Z) (v : list Z)
| OGR_F_SetFieldInteger64List (f : Handle) (i n : Z) (v : list Z)
| OGR_F_SetFieldDoubleList (f : Handle) (i n : Z) (v : list float64)
| OGR_F_SetFieldStringList (f : Handle) (i : Z) (v : list string)
| OGR_F_SetFieldBinary (f : Handle) (i n : Z) (v : list byte)
| Dataset_Bands (ds : Handle).

(** What each call hands back to Go.  The functions of godal's C shim (the
    [godal...] ones) take the bridging context: the diagnostics they emit
    into it come back with their result. *)
Definition ret_type (c : NCall) : Type :=
  match c with
  | OGR_G_Area _ => float64
  | OGR_G_GetGeometryCount _ => Z
  | OGR_G_GetGeometryType _ => Z
  | OGR_G_Contains _ _ => Z
  | OGR_G_IsEmpty _ => Z
  | OGR_G_IsValid _ => Z
  | OGR_G_DestroyGeometry _ => unit
  | godal_OGR_G_GetGeometryRef _ _ => Handle * list ErrorEvent
  | godal_OGR_G_Simplify _ _ => Handle * list ErrorEvent
  | godal_OGR_G_Buffer _ _ _ => Handle * list ErrorEvent
  | godal_OGR_G_Difference _ _ => Handle * list ErrorEvent
  | godal_OGR_G_Union _ _ => Handle * list ErrorEvent
  | godal_OGR_G_Intersects _ _ => Z * list ErrorEvent
  | godalExportGeometryWKT _ => string * list ErrorEvent
  | godalNewGeometryFromWKB _ _ _ => Handle * list ErrorEvent
  | godalRasterizeGeometry _ _ _ _ _ _ => list ErrorEvent
  | OGR_F_GetGeometryRef _ => Handle
  | OGR_F_Destroy _ => unit
  | OGR_F_GetFieldCount _ => Z
  | OGR_F_GetFieldDefnRef _ _ => Handle
  | OGR_Fld_GetNameRef _ => string
  | OGR_Fld_GetType _ => OGRFieldType
  | OGR_F_IsFieldSet _ _ => Z
  | OGR_F_GetFieldAsInteger64 _ _ => Z
  | OGR_F_GetFieldAsDouble _ _ => float64
  | OGR_F_GetFieldAsString _ _ => string
  | OGR_F_GetFieldAsDateTime _ _ => DateTimeOut
  | OGR_F_GetFieldAsIntegerList _ _ => CArray Z * Z
  | OGR_F_GetFieldAsInteger64List _ _ => CArray Z * Z
  | OGR_F_GetFieldAsDoubleList _ _ => CArray float64 * Z
  | OGR_F_GetFieldAsStringList _ _ => CArray string
  | OGR_F_GetFieldAsBinary _ _ => CArray byte * Z
  | OGR_F_SetFieldInteger _ _ _ => unit
  | OGR_F_SetFieldInteger64 _ _ _ => unit
  | OGR_F_SetFieldDouble _ _ _ => unit
  | OGR_F_SetFieldString _ _ _ => unit
  | OGR_F_SetFieldDateTime _ _ _ _ _ _ _ _ _ => unit
  | OGR_F_SetFieldIntegerList _ _ _ _ => unit
  | OGR_F_SetFieldInteger64List _ _ _ _ => unit
  | OGR_F_SetFieldDoubleList _ _ _ _ => unit
  | OGR_F_SetFieldStringList _ _ _ => unit
  | OGR_F_SetFieldBinary _ _ _ _ => unit
  | Dataset_Bands _ => list Handle
  end%type.

(** The outcome of running Go code: a value, or a run-time panic. *)
Inductive Result (A : Type) :=
| Ok (a : A)
| Panic (msg : string).
Arguments Ok {A} a.
Arguments Panic {A} msg.

(** The interface of everything outside vector.go.

    [native] runs one call in a state of the native library.  The four
    marshalling helpers are Go functions of the package declared in another
    file; they convert between slices and C arrays and, being Go code, may
    panic. *)
Record Outside := {
  World : Type;
  native : ∀ c : NCall, World → ret_type c * World;
  cIntArray : slice Z → Result (list Z);
  cDoubleArray : slice float64 → Result (list float64);
  sliceToCStringArray : slice string → Result (list string);
  cStringArrayToSlice : CArray string → Result (slice string)
}.

(** ** The monad of Go computations *)

Section Monad.
Context (X : Outside).

(** [calls] lists the native calls made so far, the most recent first. *)
Record GoState := {
  world : World X;
  calls : list NCall;
  geoms : gmap loc Geometry;
  feats : gmap loc Feature
}.

Definition Go (A : Type) : Type := GoState → Result A * GoState.

Definition ret {A} (a : A) : Go A := λ st, (Ok a, st).

Definition bind {A B} (m : Go A) (k : A → Go B) : Go B :=
  λ st, match m st with
        | (Ok a, st') => k a st'
        | (Panic msg, st') => (Panic msg, st')
        end.

Definition panic {A} (msg : string) : Go A := λ st, (Panic msg, st).

(** A call into the native side: run it and record it. *)
Definition ccall (c : NCall) : Go (ret_type c) :=
  λ st, let '(r, w) := native X c (world st) in
        (Ok r, {| world := w; calls := c :: calls st;
                  geoms := geoms st; feats := feats st |}).

(** A result computed by Go code that may have panicked. *)
Definition lift {A} (r : Result A) : Go A := λ st, (r, st).

(** Reading and writing a Go object through a pointer.  A location that was
    never allocated reads as the zero value of the struct. *)
Definition load_geom (p : loc) : Go Geometry := λ st, (Ok (geoms st !!! p), st).

Definition store_geom (p : loc) (g : Geometry) : Go unit :=
  λ st, (Ok (), {| world := world st; calls := calls st;
                   geoms := <[p := g]> (geoms st); feats := feats st |}).

Definition load_feat (p : loc) : Go Feature := λ st, (Ok (feats st !!! p), st).

Definition store_feat (p : loc) (f : Feature) : Go unit :=
  λ st, (Ok (), {| world := world st; calls := calls st;
                   geoms := geoms st; feats := <[p := f]> (feats st) |}).

(** [&Geometry{...}] and [&Feature{...}]: a fresh object. *)
Definition new_geom (g : Geometry) : Go loc :=
  λ st, let p := fresh (dom (geoms st)) in
        (Ok p, {| world := world st; calls := calls st;
                  geoms := <[p := g]> (geoms st); feats := feats st |}).

Definition new_feat (f : Feature) : Go loc :=
  λ st, let p := fresh (dom (feats st)) in
        (Ok p, {| world := world st; calls := calls st;
                  geoms := geoms st; feats := <[p := f]> (feats st) |}).
End Monad.

Arguments ret {X A} a.
Arguments bind {X A B} m k.
Arguments panic {X A} msg.
Arguments lift {X A} r.
Arguments world {X} _.
Arguments calls {X} _.
Arguments geoms {X} _.
Arguments feats {X} _.

Notation "x <- c1 ;; c2" := (bind c1 (λ x, c2))
  (at level 100, c1 at next level, right associativity).
Notation "c1 ;; c2" := (bind c1 (λ _, c2))
  (at level 100, right associativity).

(** ** The code of vector.go *)

Definition nil_deref : string :=
  "invalid memory address or nil pointer dereference".

Definition index_out_of_range_0 : string :=
  "index out of range [0] with length 0".

Section Code.
Context (X : Outside).

(** Reading a field through a pointer that may be nil. *)
Definition deref_geom (p : option loc) : Go X Geometry :=
  match p with
  | None => panic nil_deref
  | Some q => load_geom X q
  end.

(** *** Geometry *)







(** The common ending of the functions that return [( *Geometry, error)]:
    close the context; on failure return [nil, err], else a new Geometry
    around the handle. *)
Definition wrap_geometry (owned : bool) (r : Handle * list ErrorEvent)
    : Go X (option loc * option error) :=
  match cgc_close r.2 with
  | Some err => ret (None, Some err)
  | None =>
      p <- new_geom X {| isOwned := owned; g_handle := r.1 |} ;;
      ret (Some p, None)
  end.

(** func (g *Geometry) Simplify(tolerance float64, opts ...SimplifyOption) ( *Geometry, error) *)
Definition Geometry_Simplify (g : loc) (tolerance : float64)
    : Go X (option loc * option error) :=
  G <- load_geom X g ;;
  r <- ccall X (godal_OGR_G_Simplify (g_handle G) tolerance) ;;
  wrap_geometry true r.

(** func (g *Geometry) Buffer(distance float64, segments int, opts ...BufferOption) ( *Geometry, error) *)
Definition Geometry_Buffer (g : loc) (distance : float64) (segments : Z)
    : Go X (option loc * option error) :=
  G <- load_geom X g ;;
  r <- ccall X (godal_OGR_G_Buffer (g_handle G) distance (wrap32 segments)) ;;
  wrap_geometry true r.

(** [other == nil || other.handle == nil] *)
Definition other_is_empty (other : option loc) : Go X bool :=
  match other with
  | None => ret true
  | Some q => O <- load_geom X q ;; ret (bool_decide (g_handle O = nilH))
  end.

(** func (g *Geometry) Difference(other *Geometry, opts ...DifferenceOption) ( *Geometry, error) *)
Definition Geometry_Difference (g : loc) (other : option loc)
    : Go X (option loc * option error) :=
  e <- other_is_empty other ;;
  if e then ret (None, Some "other geometry is empty")
  else
    G <- load_geom X g ;;
    O <- deref_geom other ;;
    r <- ccall X (godal_OGR_G_Difference (g_handle G) (g_handle O)) ;;
    wrap_geometry true r.

(** func (g *Geometry) Union(other *Geometry, opts ...UnionOption) ( *Geometry, error) *)
Definition Geometry_Union (g : loc) (other : option loc)
    : Go X (option loc * option error) :=
  e <- other_is_empty other ;;
  if e then ret (None, Some "other geometry is empty")
  else
    G <- load_geom X g ;;
    O <- deref_geom other ;;
    r <- ccall X (godal_OGR_G_Union (g_handle G) (g_handle O)) ;;
    wrap_geometry true r.

(** func (g *Geometry) SubGeometry(subGeomIndex int, opts ...SubGeometryOption) ( *Geometry, error) *)
Definition Geometry_SubGeometry (g : loc) (subGeomIndex : Z)
    : Go X (option loc * option error) :=
  G <- load_geom X g ;;
  r <- ccall X (godal_OGR_G_GetGeometryRef (g_handle G) (wrap32 subGeomIndex)) ;;
  wrap_geometry false r.



(** func (g *Geometry) Close() *)
Definition Geometry_Close (g : loc) : Go X unit :=
  G <- load_geom X g ;;
  if bool_decide (g_handle G = nilH) then ret ()
  else
    _ <- (if isOwned G then ccall X (OGR_G_DestroyGeometry (g_handle G))
          else ret ()) ;;
    store_geom X g {| isOwned := isOwned G; g_handle := nilH |}.

(** func NewGeometryFromWKB(wkb []byte, sr *SpatialRef, opts ...NewGeometryOption) ( *Geometry, error)

    [sr] is nil or carries the handle of the SpatialRef.  [&wkb[0]] is
    evaluated with the other arguments, before the call. *)
Definition NewGeometryFromWKB (wkb : slice byte) (sr : option Handle)
    : Go X (option loc * option error) :=
  let srHandle := match sr with None => nilH | Some h => h end in
  match elems wkb with
  | [] => panic index_out_of_range_0
  | _ :: _ =>
      r <- ccall X (godalNewGeometryFromWKB (elems wkb) (wrap32 (len wkb)) srHandle) ;;
      wrap_geometry true r
  end.

(** *** Feature *)


(** func (f *Feature) Close() *)
Definition Feature_Close (f : loc) : Go X unit :=
  F <- load_feat X f ;;
  if bool_decide (f_handle F = nilH) then ret ()
  else
    _ <- ccall X (OGR_F_Destroy (f_handle F)) ;;
    store_feat X f {| f_handle := nilH |}.

(** *** Dataset.RasterizeGeometry *)

(** [for i := 1; i < len(opt.bands); i++ { opt.values = append(opt.values, opt.values[0]) }],
    with [n] the number of rounds. *)
Fixpoint append_first (n : nat) (vs : list float64) : list float64 :=
  match n with
  | O => vs
  | S k => append_first k (vs ++ [default float_zero (head vs)])
  end.

(** The option loop and the three defaulting steps, up to the comparison
    of the two lengths. *)
Definition rasterize_defaults (ds : Dataset) (opts : list RasterizeGeometryOption)
    : Go X rasterizeGeometryOpts :=
  let opt := fold_left (λ o set, set o) opts
               {| bands := None; values := None; allTouched := 0 |} in
  bs <- (if bool_decide (len (bands opt) = 0) then
           bnds <- ccall X (Dataset_Bands (cHandle ds)) ;;
           ret (Some (map (λ i, Z.of_nat i + 1) (seq 0 (length bnds))))
         else ret (bands opt)) ;;
  let vs := if bool_decide (len (values opt) = 0)
            then Some (replicate (Z.to_nat (len bs)) float_zero)
            else values opt in
  let vs := if bool_decide (len vs = 1) && negb (bool_decide (len vs = len bs))
            then Some (append_first (Z.to_nat (len bs - 1)) (elems vs))
            else vs in
  ret {| bands := bs; values := vs; allTouched := allTouched opt |}.

(** func (ds *Dataset) RasterizeGeometry(g *Geometry, opts ...RasterizeGeometryOption) error *)
Definition Dataset_RasterizeGeometry (ds : Dataset) (g : loc)
    (opts : list RasterizeGeometryOption) : Go X (option error) :=
  opt <- rasterize_defaults ds opts ;;
  if negb (bool_decide (len (values opt) = len (bands opt))) then
    ret (Some "must pass in same number of values as bands")
  else
    G <- load_geom X g ;;
    cbands <- lift (cIntArray X (bands opt)) ;;
    cvalues <- lift (cDoubleArray X (values opt)) ;;
    evs <- ccall X (godalRasterizeGeometry (cHandle ds) (g_handle G) cbands
                      (wrap32 (len (bands opt))) cvalues (wrap32 (allTouched opt))) ;;
    ret (cgc_close evs).

(** *** C arrays to slices *)

(** The pointer cast to an array of [1 << 28] cells and sliced
    [[:length:length]], then the copy into [make([]int, length)]: the first
    [length] cells behind the pointer.  The slice expression panics when
    [length] is negative or above the array bound. *)
Definition carray_prefix {A} (dflt : A) (mem : list A) (length : Z) : Result (slice A) :=
  if bool_decide (length < 0 ∨ 2 ^ 28 < length)
  then Panic "slice bounds out of range"
  else Ok (Some (map (λ i, default dflt (mem !! i)) (seq 0 (Z.to_nat length)))).

(** func cIntArrayToSlice(in *C.int, length C.int) []int *)
Definition cIntArrayToSlice (arr : CArray Z) (length : Z) : Result (slice Z) :=
  match arr with
  | None => Ok None
  | Some mem => carray_prefix 0 mem length
  end.

(** func cLongArrayToSlice(in *C.longlong, length C.int) []int64 *)
Definition cLongArrayToSlice (arr : CArray Z) (length : Z) : Result (slice Z) :=
  match arr with
  | None => Ok None
  | Some mem => carray_prefix 0 mem length
  end.

(** func cDoubleArrayToSlice(in *C.double, length C.int) []float64 *)
Definition cDoubleArrayToSlice (arr : CArray float64) (length : Z) : Result (slice float64) :=
  match arr with
  | None => Ok None
  | Some mem => carray_prefix float_zero mem length
  end.

(** func cLongArray(in []int64) *C.longlong

    [&ret[0]] panics on an empty [ret]. *)
Definition cLongArray (l : slice Z) : Result (list Z) :=
  match elems l with
  | [] => Panic index_out_of_range_0
  | c :: cs => Ok (c :: cs)
  end.

(** [C.GoBytes(unsafe.Pointer(cArray), length)] *)
Definition GoBytes (mem : list byte) (length : Z) : Result (slice byte) :=
  if bool_decide (length < 0) then Panic "gobytes: length out of range"
  else Ok (Some (map (λ i, default x00 (mem !! i)) (seq 0 (Z.to_nat length)))).

(** *** Field snapshots *)

(** func (f *Feature) getFieldAsDateTime(index C.int) time.Time

    [h] is [f.handle]. *)
Definition getFieldAsDateTime (h : Handle) (idx : Z) : Go X Time :=
  o <- ccall X (OGR_F_GetFieldAsDateTime h idx) ;;
  if negb (bool_decide (dt_ret o = 0)) then
    ret (time_Date (cint_in_goint (dt_year o)) (cint_in_goint (dt_month o))
           (cint_in_goint (dt_day o)) (cint_in_goint (dt_hour o))
           (cint_in_goint (dt_minute o)) (cint_in_goint (dt_second o)) 0 UTC)
  else ret zero_time.

(** The [switch ftype] of [Fields]: the kind and the decoded value. *)
Definition decode_field (h : Handle) (fid : Z) (ty : OGRFieldType)
    : Go X (FieldType * GoValue) :=
  match ty with
  | OFTInteger =>
      v <- ccall X (OGR_F_GetFieldAsInteger64 h fid) ;; ret (FTInt, VInt v)
  | OFTInteger64 =>
      v <- ccall X (OGR_F_GetFieldAsInteger64 h fid) ;; ret (FTInt64, VInt64 v)
  | OFTReal =>
      v <- ccall X (OGR_F_GetFieldAsDouble h fid) ;; ret (FTReal, VFloat64 v)
  | OFTString =>
      v <- ccall X (OGR_F_GetFieldAsString h fid) ;; ret (FTString, VString v)
  | OFTDate =>
      t <- getFieldAsDateTime h fid ;; ret (FTDate, VTime t)
  | OFTTime =>
      t <- getFieldAsDateTime h fid ;; ret (FTTime, VTime t)
  | OFTDateTime =>
      t <- getFieldAsDateTime h fid ;; ret (FTDateTime, VTime t)
  | OFTIntegerList =>
      r <- ccall X (OGR_F_GetFieldAsIntegerList h fid) ;;
      l <- lift (cIntArrayToSlice r.1 r.2) ;; ret (FTIntList, VInts l)
  | OFTInteger64List =>
      r <- ccall X (OGR_F_GetFieldAsInteger64List h fid) ;;
      l <- lift (cLongArrayToSlice r.1 r.2) ;; ret (FTInt64List, VInt64s l)
  | OFTRealList =>
      r <- ccall X (OGR_F_GetFieldAsDoubleList h fid) ;;
      l <- lift (cDoubleArrayToSlice r.1 r.2) ;; ret (FTRealList, VFloat64s l)
  | OFTStringList =>
      r <- ccall X (OGR_F_GetFieldAsStringList h fid) ;;
      l <- lift (cStringArrayToSlice X r) ;; ret (FTStringList, VStrings l)
  | OFTBinary =>
      r <- ccall X (OGR_F_GetFieldAsBinary h fid) ;;
      l <- match r.1 with
           | Some mem => lift (GoBytes mem r.2)
           | None => ret None
           end ;;
      ret (FTBinary, VBytes l)
  | OFTWideString | OFTWideStringList => ret (FTUnknown, VNil)
  end.

(** One round of the loop of [Fields]. *)
Definition snapshot_field (h : Handle) (fid : Z) : Go X Field :=
  fdefn <- ccall X (OGR_F_GetFieldDefnRef h fid) ;;
  fname <- ccall X (OGR_Fld_GetNameRef fdefn) ;;
  ty <- ccall X (OGR_Fld_GetType fdefn) ;;
  set <- ccall X (OGR_F_IsFieldSet h fid) ;;
  kv <- decode_field h fid ty ;;
  ret {| index := fid; name := fname; isSet := negb (bool_decide (set = 0));
         ftype := kv.1; val := kv.2 |}.

(** [for fid := C.int(0); fid < fcount; fid++], with [n] rounds left. *)
Fixpoint snapshot_loop (h : Handle) (n : nat) (fid : Z) : Go X (list Field) :=
  match n with
  | O => ret []
  | S k =>
      fld <- snapshot_field h fid ;;
      rest <- snapshot_loop h k (fid + 1) ;;
      ret (fld :: rest)
  end.

(** func (f *Feature) Fields() Fields *)
Definition Feature_Fields (f : loc) : Go X Fields :=
  F <- load_feat X f ;;
  fcount <- ccall X (OGR_F_GetFieldCount (f_handle F)) ;;
  if bool_decide (fcount = 0) then ret None
  else if bool_decide (fcount < 0) then panic "makeslice: len out of range"
  else
    l <- snapshot_loop (f_handle F) (Z.to_nat fcount) 0 ;;
    ret (Some l).

(** func (flds Fields) GetByName(name string) ( *Field, error) *)
Definition Fields_GetByName (flds : Fields) (nm : string) : option Field * option error :=
  match find (λ fld, bool_decide (name fld = nm)) (elems flds) with
  | Some fld => (Some fld, None)
  | None => (None, Some "field not found")
  end.

(** func (flds Fields) GetByIndex(index int) ( *Field, error) *)
Definition Fields_GetByIndex (flds : Fields) (i : Z) : option Field * option error :=
  match find (λ fld, bool_decide (index fld = i)) (elems flds) with
  | Some fld => (Some fld, None)
  | None => (None, Some "field not found")
  end.

(** func (fld *Field) IsSet() bool *)
Definition Field_IsSet (fld : Field) : bool := isSet fld.

(** func (fld *Field) Type() FieldType *)
Definition Field_Type (fld : Field) : FieldType := ftype fld.

(** *** The typed accessor *)

(** func NewFieldValueQuerier[FVT FieldValueType](srcFeature *Feature) *FieldValueQuerier[FVT] *)
Definition NewFieldValueQuerier (T : GoType) (src : option loc) : FieldValueQuerier :=
  {| FVT := T; srcFeature := src |}.

(** func (fvq *FieldValueQuerier[FVT]) GetValue(field *Field) (FVT, error) *)
Definition GetValue (fvq : FieldValueQuerier) (field : Field)
    : Go X (GoValue * option error) :=
  if bool_decide (dyn_type (val field) = Some (FVT fvq))
  then ret (val field, None)
  else ret (zero_value (FVT fvq),
            Some "requested type is not suitable for this type of field").

(** The [switch field.ftype] of [SetValue]: the type assertion and the
    native write.  The result is the error returned from inside the
    switch, if any. *)
Definition write_field (h : Handle) (field : Field) (value : GoValue)
    : Go X (option error) :=
  let idx := wrap32 (index field) in
  match ftype field with
  | FTInt =>
      match value with
      | VInt v => _ <- ccall X (OGR_F_SetFieldInteger h idx (wrap32 v)) ;; ret None
      | _ => ret (Some "value for this field must be of type 'int'")
      end
  | FTInt64 =>
      match value with
      | VInt64 v => _ <- ccall X (OGR_F_SetFieldInteger64 h idx v) ;; ret None
      | _ => ret (Some "value for this field must be of type 'int64'")
      end
  | FTReal =>
      match value with
      | VFloat64 v => _ <- ccall X (OGR_F_SetFieldDouble h idx v) ;; ret None
      | _ => ret (Some "value for this field must be of type 'float64'")
      end
  | FTString =>
      match value with
      | VString v => _ <- ccall X (OGR_F_SetFieldString h idx v) ;; ret None
      | _ => ret (Some "value for this field must be of type 'string'")
      end
  | FTDate | FTTime | FTDateTime =>
      match value with
      | VTime t =>
          _ <- ccall X (OGR_F_SetFieldDateTime h idx
                          (wrap32 (t_year t)) (wrap32 (t_month t)) (wrap32 (t_day t))
                          (wrap32 (t_hour t)) (wrap32 (t_minute t)) (wrap32 (t_second t))
                          1) ;;
          ret None
      | _ => ret (Some "value for this field must be of type 'time.Time'")
      end
  | FTIntList =>
      match value with
      | VInts l =>
          arr <- lift (cIntArray X l) ;;
          _ <- ccall X (OGR_F_SetFieldIntegerList h idx (wrap32 (len l)) arr) ;;
          ret None
      | _ => ret (Some "value for this field must be of type '[]int'")
      end
  | FTInt64List =>
      match value with
      | VInt64s l =>
          arr <- lift (cLongArray l) ;;
          _ <- ccall X (OGR_F_SetFieldInteger64List h idx (wrap32 (len l)) arr) ;;
          ret None
      | _ => ret (Some "value for this field must be of type '[]int64'")
      end
  | FTRealList =>
      match value with
      | VFloat64s l =>
          arr <- lift (cDoubleArray X l) ;;
          _ <- ccall X (OGR_F_SetFieldDoubleList h idx (wrap32 (len l)) arr) ;;
          ret None
      | _ => ret (Some "value for this field must be of type '[]float64'")
      end
  | FTStringList =>
      match value with
      | VStrings l =>
          arr <- lift (sliceToCStringArray X l) ;;
          _ <- ccall X (OGR_F_SetFieldStringList h idx arr) ;;
          ret None
      | _ => ret (Some "value for this field must be of type '[]float64'")
      end
  | FTBinary =>
      match value with
      | VBytes b =>
          match elems b with
          | [] => panic index_out_of_range_0
          | _ :: _ =>
              _ <- ccall X (OGR_F_SetFieldBinary h idx (wrap32 (len b)) (elems b)) ;;
              ret None
          end
      | _ => ret (Some "value for this field must be of type '[]byte'")
      end
  | FTUnknown => ret (Some "setting value is not implemented for this type of field")
  end.

(** func (fvq *FieldValueQuerier[FV]) SetValue(field *Field, value FV) error

    The result pairs the Field behind the pointer after the call with the
    error. *)
Definition SetValue (fvq : FieldValueQuerier) (field : Field) (value : GoValue)
    : Go X (Field * option error) :=
  match srcFeature fvq with
  | None => ret (field, Some "source feature is nil")
  | Some f =>
      F <- load_feat X f ;;
      if bool_decide (f_handle F = nilH)
      then ret (field, Some "invalid source feature, probably closed")
      else
        e <- write_field (f_handle F) field value ;;
        match e with
        | Some err => ret (field, Some err)
        | None =>
            set <- ccall X (OGR_F_IsFieldSet (f_handle F) (wrap32 (index field))) ;;
            ret ({| index := index field; name := name field;
                    isSet := negb (bool_decide (set = 0));
                    ftype := ftype field; val := value |}, None)
        end
  end.
End Code.

(** ** A reference implementation of the outside

    A small stand-in for GDAL, enough to run the code above: features with a
    schema and one optional value per slot, geometries with their sub-geometry
    handles, datasets with a number of bands.  It validates handles the way
    the C API does (a NULL or unknown handle yields a neutral result, and an
    error diagnostic where the call goes through the bridging context). *)

Module RefLib.

Inductive NValue :=
| NInt (v : Z)
| NInt64 (v : Z)
| NReal (v : float64)
| NString (v : string)
| NDateTime (y m d h mi s tz : Z)
| NIntList (l : list Z)
| NInt64List (l : list Z)
| NRealList (l : list float64)
| NStringList (l : list string)
| NBinary (l : list byte).

Record NField := { nf_name : string; nf_type : OGRFieldType; nf_value : option NValue }.

Record NFeature := { nfe_fields : list NField; nfe_geom : Handle }.

Record W := {
  features : gmap Z NFeature;
  geometries : gmap Z (list Handle);
  datasets : gmap Z nat
}.

Definition err (msg : string) : list ErrorEvent :=
  [{| ev_severity := SevError; ev_code := 1; ev_message := msg |}].

(** The handle of the definition of slot [i] of feature [f], and back. *)
Definition defn_handle (f i : Z) : Handle := f * 1024 + i + 1.
Definition defn_feature (d : Handle) : Z := (d - 1) `div` 1024.
Definition defn_index (d : Handle) : Z := (d - 1) `mod` 1024.

Definition slot (w : W) (f i : Z) : option NField :=
  if bool_decide (i < 0) then None
  else fs ← features w !! f; nfe_fields fs !! Z.to_nat i.

Definition value (w : W) (f i : Z) : option NValue :=
  fld ← slot w f i; nf_value fld.

(** A write: the slot takes the value when it exists and [ok] accepts its
    declared type; otherwise nothing changes. *)
Definition put (w : W) (f i : Z) (ok : OGRFieldType → bool) (v : NValue) : W :=
  match features w !! f, slot w f i with
  | Some fs, Some fld =>
      if ok (nf_type fld) then
        {| features :=
             <[f := {| nfe_fields :=
                         <[Z.to_nat i := {| nf_name := nf_name fld; nf_type := nf_type fld;
                                            nf_value := Some v |}]> (nfe_fields fs);
                       nfe_geom := nfe_geom fs |}]> (features w);
           geometries := geometries w; datasets := datasets w |}
      else w
  | _, _ => w
  end.

Definition same (t : OGRFieldType) (u : OGRFieldType) : bool :=
  match t, u with
  | OFTInteger, OFTInteger | OFTInteger64, OFTInteger64 | OFTReal, OFTReal
  | OFTString, OFTString | OFTBinary, OFTBinary
  | OFTIntegerList, OFTIntegerList | OFTInteger64List, OFTInteger64List
  | OFTRealList, OFTRealList | OFTStringList, OFTStringList
  | OFTDate, OFTDate | OFTTime, OFTTime | OFTDateTime, OFTDateTime => true
  | _, _ => false
  end.

Definition temporal (u : OGRFieldType) : bool :=
  same OFTDate u || same OFTTime u || same OFTDateTime u.

(** A new geometry with the sub-geometries [subs]. *)
Definition add_geometry (w : W) (subs : list Handle) : Handle * W :=
  let g := fresh (dom (geometries w) ∪ {[0]}) in
  (g, {| features := features w; geometries := <[g := subs]> (geometries w);
         datasets := datasets w |}).

(** A geometry-producing call on [g]: a diagnostic on an unknown handle. *)
Definition derive (w : W) (g : Handle) (what : string)
    : (Handle * list ErrorEvent) * W :=
  match geometries w !! g with
  | None => ((0, err what), w)
  | Some _ => let '(n, w') := add_geometry w [] in ((n, []), w')
  end.

Definition exec (c : NCall) (w : W) : ret_type c * W :=
  match c return ret_type c * W with
  | OGR_G_Area _ => (float_zero, w)
  | OGR_G_GetGeometryCount g =>
      (match geometries w !! g with Some s => Z.of_nat (length s) | None => 0 end, w)
  | OGR_G_GetGeometryType _ => (0, w)
  | OGR_G_Contains _ _ => (0, w)
  | OGR_G_IsEmpty g =>
      (match geometries w !! g with Some _ => 0 | None => 1 end, w)
  | OGR_G_IsValid g =>
      (match geometries w !! g with Some _ => 1 | None => 0 end, w)
  | OGR_G_DestroyGeometry g =>
      ((), {| features := features w; geometries := delete g (geometries w);
              datasets := datasets w |})
  | godal_OGR_G_GetGeometryRef g i =>
      (match geometries w !! g with
       | None => (0, err "NULL geometry")
       | Some subs =>
           if bool_decide (i < 0) then (0, err "invalid sub-geometry index")
           else match subs !! Z.to_nat i with
                | Some s => (s, [])
                | None => (0, err "invalid sub-geometry index")
                end
       end, w)
  | godal_OGR_G_Simplify g _ => derive w g "NULL geometry"
  | godal_OGR_G_Buffer g _ _ => derive w g "NULL geometry"
  | godal_OGR_G_Difference g _ => derive w g "NULL geometry"
  | godal_OGR_G_Union g _ => derive w g "NULL geometry"
  | godal_OGR_G_Intersects g _ =>
      (match geometries w !! g with
       | None => (0, err "NULL geometry")
       | Some _ => (0, [])
       end, w)
  | godalExportGeometryWKT g =>
      (match geometries w !! g with
       | None => ("", err "NULL geometry")
       | Some _ => ("GEOMETRYCOLLECTION EMPTY", [])
       end, w)
  | godalNewGeometryFromWKB _ n _ =>
      if bool_decide (n < 5) then ((0, err "corrupt data"), w)
      else let '(g, w') := add_geometry w [] in ((g, []), w')
  | godalRasterizeGeometry ds g bnds _ _ _ =>
      (match datasets w !! ds, geometries w !! g with
       | Some n, Some _ =>
           if forallb (λ b, bool_decide (1 ≤ b ≤ Z.of_nat n)) bnds then []
           else err "illegal band"
       | _, _ => err "NULL handle"
       end, w)
  | OGR_F_GetGeometryRef f =>
      (match features w !! f with Some fs => nfe_geom fs | None => 0 end, w)
  | OGR_F_Destroy f =>
      ((), {| features := delete f (features w); geometries := geometries w;
              datasets := datasets w |})
  | OGR_F_GetFieldCount f =>
      (match features w !! f with
       | Some fs => Z.of_nat (length (nfe_fields fs))
       | None => 0
       end, w)
  | OGR_F_GetFieldDefnRef f i =>
      (match slot w f i with Some _ => defn_handle f i | None => 0 end, w)
  | OGR_Fld_GetNameRef d =>
      (match slot w (defn_feature d) (defn_index d) with
       | Some fld => nf_name fld
       | None => ""
       end, w)
  | OGR_Fld_GetType d =>
      (match slot w (defn_feature d) (defn_index d) with
       | Some fld => nf_type fld
       | None => OFTInteger
       end, w)
  | OGR_F_IsFieldSet f i =>
      (match value w f i with Some _ => 1 | None => 0 end, w)
  | OGR_F_GetFieldAsInteger64 f i =>
      (match value w f i with
       | Some (NInt v) | Some (NInt64 v) => v
       | _ => 0
       end, w)
  | OGR_F_GetFieldAsDouble f i =>
      (match value w f i with Some (NReal v) => v | _ => float_zero end, w)
  | OGR_F_GetFieldAsString f i =>
      (match value w f i with Some (NString v) => v | _ => "" end, w)
  | OGR_F_GetFieldAsDateTime f i =>
      (match value w f i with
       | Some (NDateTime y m d h mi s tz) =>
           {| dt_ret := 1; dt_year := y; dt_month := m; dt_day := d; dt_hour := h;
              dt_minute := mi; dt_second := s; dt_tzflag := tz |}
       | _ =>
           {| dt_ret := 0; dt_year := 0; dt_month := 0; dt_day := 0; dt_hour := 0;
              dt_minute := 0; dt_second := 0; dt_tzflag := 0 |}
       end, w)
  | OGR_F_GetFieldAsIntegerList f i =>
      (match value w f i with
       | Some (NIntList l) => (Some l, Z.of_nat (length l))
       | _ => (None, 0)
       end, w)
  | OGR_F_GetFieldAsInteger64List f i =>
      (match value w f i with
       | Some (NInt64List l) => (Some l, Z.of_nat (length l))
       | _ => (None, 0)
       end, w)
  | OGR_F_GetFieldAsDoubleList f i =>
      (match value w f i with
       | Some (NRealList l) => (Some l, Z.of_nat (length l))
       | _ => (None, 0)
       end, w)
  | OGR_F_GetFieldAsStringList f i =>
      (match value w f i with Some (NStringList l) => Some l | _ => None end, w)
  | OGR_F_GetFieldAsBinary f i =>
      (match value w f i with
       | Some (NBinary l) => (Some l, Z.of_nat (length l))
       | _ => (None, 0)
       end, w)
  | OGR_F_SetFieldInteger f i v => ((), put w f i (same OFTInteger) (NInt v))
  | OGR_F_SetFieldInteger64 f i v => ((), put w f i (same OFTInteger64) (NInt64 v))
  | OGR_F_SetFieldDouble f i v => ((), put w f i (same OFTReal) (NReal v))
  | OGR_F_SetFieldString f i v => ((), put w f i (same OFTString) (NString v))
  | OGR_F_SetFieldDateTime f i y m d h mi s tz =>
      (* GDAL keeps the year of a date in 16 bits and refuses other years. *)
      ((), if bool_decide (-32768 ≤ y ≤ 32767)
           then put w f i temporal (NDateTime y m d h mi s tz)
           else w)
  | OGR_F_SetFieldIntegerList f i _ v => ((), put w f i (same OFTIntegerList) (NIntList v))
  | OGR_F_SetFieldInteger64List f i _ v =>
      ((), put w f i (same OFTInteger64List) (NInt64List v))
  | OGR_F_SetFieldDoubleList f i _ v => ((), put w f i (same OFTRealList) (NRealList v))
  | OGR_F_SetFieldStringList f i v => ((), put w f i (same OFTStringList) (NStringList v))
  | OGR_F_SetFieldBinary f i _ v => ((), put w f i (same OFTBinary) (NBinary v))
  | Dataset_Bands ds =>
      (match datasets w !! ds with
       | Some n => map (λ b, ds * 1024 + Z.of_nat b) (seq 1 n)
       | None => []
       end, w)
  end.

(** The marshalling helpers, written after [cLongArray], the one of them that
    vector.go defines: a copy of the elements, taken by the address of
    the first. *)
Definition c_array {A} (l : slice A) : Result (list A) :=
  match elems l with
  | [] => Panic index_out_of_range_0
  | c :: cs => Ok (c :: cs)
  end.

Definition lib : Outside :=
  {| World := W;
     native := exec;
     cIntArray := c_array;
     cDoubleArray := c_array;
     sliceToCStringArray := λ l, Ok (elems l);
     cStringArrayToSlice := λ a, Ok a |}.

(** A Go state around a native state, with nothing allocated yet. *)
Definition start (w : W) : GoState lib :=
  {| world := (w : World lib); calls := []; geoms := ∅; feats := ∅ |}.

Definition no_world : W := {| features := ∅; geometries := ∅; datasets := ∅ |}.

End RefLib.

(** ** Concrete inputs *)

Module Demo.
Import RefLib.

Definition column (nm : string) (ty : OGRFieldType) : NField :=
  {| nf_name := nm; nf_type := ty; nf_value := None |}.

(** Feature 7 has four attribute slots and geometry 9; feature 8 comes from
    a layer without attributes.  Geometry 20 is a collection of 21 and 22.
    Dataset 3 has three bands. *)
Definition w0 : W :=
  {| features :=
       {[ 7 := {| nfe_fields := [column "intCol" OFTInteger;
                                  column "dateCol" OFTDateTime;
                                  column "binCol" OFTBinary;
                                  column "int64ListCol" OFTInteger64List];
                  nfe_geom := 9 |};
          8 := {| nfe_fields := []; nfe_geom := 0 |} ]};
     geometries := {[ 9 := []; 20 := [21; 22]; 21 := []; 22 := [] ]};
     datasets := {[ 3 := 3%nat ]} |}.

(** Go objects: geometry 0 owns handle 20 and geometry 1 is [Geometry{}];
    features 0 and 2 wrap handles 7 and 8 and feature 1 is [Feature{}]. *)
Definition s0 : GoState lib :=
  {| world := (w0 : World lib);
     calls := [];
     geoms := {[ 0%nat := {| isOwned := true; g_handle := 20 |};
                 1%nat := {| isOwned := false; g_handle := nilH |} ]};
     feats := {[ 0%nat := {| f_handle := 7 |};
                 1%nat := {| f_handle := nilH |};
                 2%nat := {| f_handle := 8 |} ]} |}.

Definition ds3 : Dataset := {| cHandle := 3 |}.


(** After [sub, _ := g0.SubGeometry(0)]: the view is Go object 2. *)
Definition s1 : GoState lib := (Geometry_SubGeometry lib 0%nat 0 s0).2.

(** Modelled from the spec: the options [Bands] and [Values] are declared in
    a file that is not under src/.  The comment of [RasterizeGeometry]
    gives them as the list of bands to affect and the pixel values to burn;
    the package's tests number the bands from 0, where the default of
    [RasterizeGeometry] numbers them from 1. *)
Definition Bands (b : list Z) : RasterizeGeometryOption :=
  λ o, {| bands := Some (map (λ i, i + 1) b); values := values o;
          allTouched := allTouched o |}.
Definition Values (v : list float64) : RasterizeGeometryOption :=
  λ o, {| bands := bands o; values := Some v; allTouched := allTouched o |}.

Definition one : float64 := S754_finite false 1 0.
Definition two : float64 := S754_finite false 1 1.

(** Snapshot entries of feature 7, before any write. *)
Definition intField : Field :=
  {| index := 0; name := "intCol"; isSet := false; ftype := FTInt; val := VInt 0 |}.
Definition dateField : Field :=
  {| index := 1; name := "dateCol"; isSet := false; ftype := FTDateTime;
     val := VTime zero_time |}.
Definition binField : Field :=
  {| index := 2; name := "binCol"; isSet := false; ftype := FTBinary;
     val := VBytes None |}.

Definition int64ListField : Field :=
  {| index := 3; name := "int64ListCol"; isSet := false; ftype := FTInt64List;
     val := VInt64s None |}.

(** What [Fields] returns for feature 7 before any write. *)
Definition snapshot0 : Fields := Some [intField; dateField; binField; int64ListField].

(** 2000-01-01 00:00:00.000000005 +02:00. *)
Definition y2k : Time :=
  {| t_year := 2000; t_month := 1; t_day := 1; t_hour := 0; t_minute := 0;
     t_second := 0; t_nsec := 5; t_loc := FixedZone "CEST" 7200 |}.

(** The same date and clock in the year 40000. *)
Definition year_40000 : Time :=
  {| t_year := 40000; t_month := 1; t_day := 1; t_hour := 0; t_minute := 0;
     t_second := 0; t_nsec := 5; t_loc := FixedZone "CEST" 7200 |}.

(** [SetValue] of a time into the DateTime field of feature 7, then the
    payload of that field in a new snapshot of the feature. *)
Definition write_then_reread (t : Time) : Result (option error * GoValue) :=
  fst ((r <- SetValue lib (NewFieldValueQuerier TTime (Some 0%nat)) dateField (VTime t) ;;
   flds <- Feature_Fields lib 0%nat ;;
   ret (r.2, match Fields_GetByIndex flds 1 with
             | (Some fld, _) => val fld
             | (None, _) => VNil
             end)) s0).

End Demo.

(** ** Vocabulary of the properties *)

(** The type a kind corresponds to: int for Int, int64 for Int64, float64 for
    Real, string for String, time.Time for the three temporal kinds, []byte
    for Binary, the slice types for the list kinds, and no type for Unknown. *)
Definition kind_type (k : FieldType) : option GoType :=
  match k with
  | FTInt => Some TInt
  | FTInt64 => Some TInt64
  | FTReal => Some TFloat64
  | FTString => Some TString
  | FTDate | FTTime | FTDateTime => Some TTime
  | FTBinary => Some TBytes
  | FTIntList => Some TInts
  | FTInt64List => Some TInt64s
  | FTRealList => Some TFloat64s
  | FTStringList => Some TStrings
  | FTUnknown => None
  end.

Definition temporal_kind (k : FieldType) : Prop :=
  k = FTDate ∨ k = FTTime ∨ k = FTDateTime.






(** The burn plan in the words of the documentation of [RasterizeGeometry]:
    the bands default to all the bands of the dataset, the values default to
    zeros, and a single value is replicated to all the bands.  [nb] is the
    number of bands of the dataset and [o] the options as given. *)
Definition planned_bands (nb : nat) (o : rasterizeGeometryOpts) : list Z :=
  match elems (bands o) with
  | [] => map (λ i, Z.of_nat i + 1) (seq 0 nb)
  | bs => bs
  end.

Definition planned_values (nb : nat) (o : rasterizeGeometryOpts) : list float64 :=
  match elems (values o) with
  | [] => replicate (length (planned_bands nb o)) float_zero
  | [v] => replicate (length (planned_bands nb o)) v
  | vs => vs
  end.

(** The options after the option loop. *)
Definition given_opts (opts : list RasterizeGeometryOption) : rasterizeGeometryOpts :=
  fold_left (λ o set, set o) opts {| bands := None; values := None; allTouched := 0 |}.

(** The payload of the field has the type its kind corresponds to. *)
Definition well_typed (fld : Field) : Prop :=
  dyn_type (val fld) = kind_type (ftype fld).

(** A temporal entry of a snapshot of the feature with handle [h] holds what
    [getFieldAsDateTime] returned for its slot, a time in UTC without
    sub-second part. *)
Definition from_getFieldAsDateTime (X : Outside) (h : Handle) (fld : Field) : Prop :=
  temporal_kind (ftype fld) →
  ∃ t sa sb, getFieldAsDateTime X h (index fld) sa = (Ok t, sb) ∧
             val fld = VTime t ∧ t_loc t = UTC ∧ t_nsec t = 0.



(** The feature and the slot a native write goes to. *)
Definition written_slot (c : NCall) : option (Handle * Z) :=
  match c with
  | OGR_F_SetFieldInteger f i _ | OGR_F_SetFieldInteger64 f i _
  | OGR_F_SetFieldDouble f i _ | OGR_F_SetFieldString f i _
  | OGR_F_SetFieldDateTime f i _ _ _ _ _ _ _
  | OGR_F_SetFieldIntegerList f i _ _ | OGR_F_SetFieldInteger64List f i _ _
  | OGR_F_SetFieldDoubleList f i _ _ | OGR_F_SetFieldStringList f i _
  | OGR_F_SetFieldBinary f i _ _ => Some (f, i)
  | _ => None
  end.

(** The marshalling of the value to C returns: a byte slice and an int64
    list are not empty, and the helpers of the other list kinds return
    normally. *)
Definition marshals (X : Outside) (v : GoValue) : Prop :=
  match v with
  | VBytes b => elems b ≠ []
  | VInt64s l => elems l ≠ []
  | VInts l => ∃ a, cIntArray X l = Ok a
  | VFloat64s l => ∃ a, cDoubleArray X l = Ok a
  | VStrings l => ∃ a, sliceToCStringArray X l = Ok a
  | _ => True
  end.

(** The functions that build a Geometry out of the receiver, or out of
    bytes, with their arguments. *)
Inductive GeometryMaker :=
| MSimplify (tolerance : float64)
| MBuffer (distance : float64) (segments : Z)
| MDifference (other : option loc)
| MUnion (other : option loc)
| MFromWKB (wkb : slice byte) (sr : option Handle).

Definition make_geometry (X : Outside) (m : GeometryMaker) (g : loc)
    : Go X (option loc * option error) :=
  match m with
  | MSimplify t => Geometry_Simplify X g t
  | MBuffer d n => Geometry_Buffer X g d n
  | MDifference other => Geometry_Difference X g other
  | MUnion other => Geometry_Union X g other
  | MFromWKB wkb sr => NewGeometryFromWKB X wkb sr
  end.

(** A native call that only reads the feature [h], or a field definition. *)
Definition reads_feature (h : Handle) (c : NCall) : Prop :=
  match c with
  | OGR_F_GetFieldCount f | OGR_F_GetFieldDefnRef f _ | OGR_F_IsFieldSet f _
  | OGR_F_GetFieldAsInteger64 f _ | OGR_F_GetFieldAsDouble f _
  | OGR_F_GetFieldAsString f _ | OGR_F_GetFieldAsDateTime f _
  | OGR_F_GetFieldAsIntegerList f _ | OGR_F_GetFieldAsInteger64List f _
  | OGR_F_GetFieldAsDoubleList f _ | OGR_F_GetFieldAsStringList f _
  | OGR_F_GetFieldAsBinary f _ => f = h
  | OGR_Fld_GetNameRef _ | OGR_Fld_GetType _ => True
  | _ => False
  end.

(** From [st] to [st'] the native calls added only read the feature [h], and
    no Go object changed. *)
Definition only_reads {X : Outside} (h : Handle) (st st' : GoState X) : Prop :=
  ∃ new, calls st' = (new ++ calls st)%list ∧ Forall (reads_feature h) new ∧
         geoms st' = geoms st ∧ feats st' = feats st.

(** A computation that only reads the feature [h], whatever its outcome. *)
Definition reader {X : Outside} {A} (h : Handle) (m : Go X A) : Prop :=
  ∀ st, only_reads h st (m st).2.

(** * Properties *)

(** Unfolding the monad. *)
Ltac go_unfold :=
  unfold bind, ret, panic, lift, ccall, load_geom, store_geom, load_feat,
    store_feat, new_geom, new_feat in *.

Section Handles.
Context (X : Outside).
Implicit Types (st : GoState X) (g f p : loc).

Lemma Geometry_Close_closed st g :
  g_handle (geoms st !!! g) = nilH → Geometry_Close X g st = (Ok (), st).
Proof.
  intros H. unfold Geometry_Close. go_unfold. rewrite H. done.
Qed.

Lemma Geometry_Close_result st g :
  ∃ st', Geometry_Close X g st = (Ok (), st') ∧ g_handle (geoms st' !!! g) = nilH.
Proof.
  unfold Geometry_Close. go_unfold.
  destruct (bool_decide (g_handle (geoms st !!! g) = nilH)) eqn:E.
  - eexists; split; [done|]. by apply bool_decide_eq_true in E.
  - destruct (isOwned (geoms st !!! g)).
    + destruct (native X _ (world st)) as [[] w] eqn:N. cbn.
      eexists; split; [done|]. cbn. by rewrite lookup_total_insert_eq.
    + cbn. eexists; split; [done|]. cbn. by rewrite lookup_total_insert_eq.
Qed.

Lemma Feature_Close_closed st f :
  f_handle (feats st !!! f) = nilH → Feature_Close X f st = (Ok (), st).
Proof.
  intros H. unfold Feature_Close. go_unfold. rewrite H. done.
Qed.

Lemma Feature_Close_result st f :
  ∃ st', Feature_Close X f st = (Ok (), st') ∧ f_handle (feats st' !!! f) = nilH.
Proof.
  unfold Feature_Close. go_unfold.
  destruct (bool_decide (f_handle (feats st !!! f) = nilH)) eqn:E.
  - eexists; split; [done|]. by apply bool_decide_eq_true in E.
  - destruct (native X _ (world st)) as [[] w] eqn:N. cbn.
    eexists; split; [done|]. cbn. by rewrite lookup_total_insert_eq.
Qed.

(** C1. Closing a handle twice is idempotent and harmless.  For every
    Geometry and every Feature, in every state: the first [Close] returns
    normally and leaves the local handle nil; run again in the state it
    left, [Close] returns normally and leaves that state as it is (no
    native call is added to [calls], so the native destroy function is not
    invoked a second time). *)
Theorem close_twice_is_harmless st g f :
  (∃ st1, Geometry_Close X g st = (Ok (), st1) ∧
          g_handle (geoms st1 !!! g) = nilH ∧
          Geometry_Close X g st1 = (Ok (), st1)) ∧
  (∃ st1, Feature_Close X f st = (Ok (), st1) ∧
          f_handle (feats st1 !!! f) = nilH ∧
          Feature_Close X f st1 = (Ok (), st1)).
Proof.
  split.
  - destruct (Geometry_Close_result st g) as (st1 & H1 & H2).
    exists st1. auto using Geometry_Close_closed.
  - destruct (Feature_Close_result st f) as (st1 & H1 & H2).
    exists st1. auto using Feature_Close_closed.
Qed.






End Handles.


Section Accessors.
Context (X : Outside).
Implicit Types (st : GoState X) (g : loc).




End Accessors.



Section Snapshots.
Context (X : Outside).
Implicit Types (st : GoState X) (f : loc) (h : Handle).

(** Naming the result of every native call in the goal. *)
Ltac native_results :=
  repeat match goal with
  | |- context [native X ?c ?w] =>
      let r := fresh "r" in let w' := fresh "w" in
      destruct (native X c w) as [r w'] eqn:?; cbn
  end.

(** Splitting on every result, option and test the goal branches on. *)
Ltac branches :=
  repeat match goal with
  | |- context [match ?r with Ok _ => _ | Panic _ => _ end] => destruct r; cbn
  | |- context [match ?r with Some _ => _ | None => _ end] => destruct r; cbn
  | |- context [if ?b then _ else _] => destruct b; cbn
  end.

Lemma getFieldAsDateTime_utc h i st :
  ∃ t st', getFieldAsDateTime X h i st = (Ok t, st') ∧ t_loc t = UTC ∧ t_nsec t = 0.
Proof.
  unfold getFieldAsDateTime. go_unfold. native_results. branches; eauto.
Qed.

Lemma decode_field_typed h fid ty st kv st' :
  decode_field X h fid ty st = (Ok kv, st') → dyn_type kv.2 = kind_type kv.1.
Proof.
  destruct ty; cbn [decode_field]; unfold getFieldAsDateTime; go_unfold;
    native_results; branches; intros [= <- <-] || intros [=]; done.
Qed.

Lemma decode_field_temporal h fid ty st kv st' :
  decode_field X h fid ty st = (Ok kv, st') → temporal_kind kv.1 →
  ∃ t, getFieldAsDateTime X h fid st = (Ok t, st') ∧ kv.2 = VTime t ∧
       t_loc t = UTC ∧ t_nsec t = 0.
Proof.
  destruct ty; cbn [decode_field];
    try (destruct (getFieldAsDateTime_utc h fid st) as (t & s' & E & ? & ?);
         unfold bind; rewrite E; cbn; intros [= <- <-] _; by exists t);
    go_unfold; native_results; branches;
    (intros [= <- <-] || intros [=]); intros [|[|]]; discriminate.
Qed.

Lemma snapshot_field_spec h fid st fld st' :
  snapshot_field X h fid st = (Ok fld, st') →
  index fld = fid ∧ well_typed fld ∧ from_getFieldAsDateTime X h fld.
Proof.
  unfold snapshot_field. unfold bind at 1 2 3 4. unfold ccall.
  native_results. unfold bind.
  destruct (decode_field X h fid _ _) as [[kv|msg] s'] eqn:D; [|done].
  cbn. intros [= <- <-]. cbn. split; [done|]. split.
  - by eapply decode_field_typed.
  - intros T. cbn in T. edestruct decode_field_temporal as (t & E & ? & ? & ?); [done..|].
    unfold from_getFieldAsDateTime. cbn. eauto 10.
Qed.



Lemma GetValue_spec T src (fld : Field) st :
  GetValue X (NewFieldValueQuerier T src) fld st =
    if bool_decide (dyn_type (val fld) = Some T)
    then (Ok (val fld, None), st)
    else (Ok (zero_value T,
              Some "requested type is not suitable for this type of field"), st).
Proof. unfold GetValue. cbn. by destruct (bool_decide _). Qed.


(** C4 (amended).  When the feature has no attribute slot (the native field
    count is 0), [Fields] returns normally, after that one native call, and
    what it returns is the nil slice: a sequence of length 0, and no error
    (the function has no error result). *)
Theorem Fields_of_empty_schema f st :
  (native X (OGR_F_GetFieldCount (f_handle (feats st !!! f))) (world st)).1 = 0 →
  ∃ flds st', Feature_Fields X f st = (Ok flds, st') ∧
    flds = None ∧ len flds = 0 ∧
    calls st' = OGR_F_GetFieldCount (f_handle (feats st !!! f)) :: calls st.
Proof.
  intros H. unfold Feature_Fields. unfold bind at 1 2. unfold load_feat, ccall.
  destruct (native X _ (world st)) as [n w]. cbn in H. subst n. cbn.
  eexists _, _. done.
Qed.
End Snapshots.


(** Feature 8 (Go object 2) comes from a layer without attributes. *)
Lemma Fields_of_empty_schema_witness :
  ∃ flds st', Feature_Fields RefLib.lib 2%nat Demo.s0 = (Ok flds, st') ∧
    flds = None ∧ len flds = 0 ∧
    calls st' = OGR_F_GetFieldCount (f_handle (feats Demo.s0 !!! 2%nat)) :: calls Demo.s0.
Proof.
  apply (Fields_of_empty_schema RefLib.lib 2%nat Demo.s0).
  vm_compute. reflexivity.
Defined.

(** C4, as stated, fails: for the feature without attributes [Fields]
    returns the nil slice, which is not an empty sequence that is present. *)
Lemma Fields_of_empty_schema_is_nil :
  (Feature_Fields RefLib.lib 2%nat Demo.s0).1 = Ok None ∧
  (Feature_Fields RefLib.lib 2%nat Demo.s0).1 ≠ Ok (Some []).
Proof. split; vm_compute; [reflexivity | discriminate]. Qed.

Section Typed.
Context (X : Outside).
Implicit Types (st : GoState X) (f : loc) (h : Handle) (fld : Field).

Lemma write_field_writes h fld v T st :
  kind_type (ftype fld) = Some T → dyn_type v = Some T → marshals X v →
  ∃ wr, written_slot wr = Some (h, wrap32 (index fld)) ∧
        write_field X h fld v st = (Ok None, (ccall X wr st).2).
Proof.
  intros HK HV HM. unfold write_field.
  destruct (ftype fld); cbn in HK; try discriminate HK; injection HK as <-;
    destruct v; try discriminate HV; cbn in HM;
    lazymatch type of HM with
    | True => idtac
    | ex _ => destruct HM as [a Ha]; unfold bind at 1; unfold lift at 1; rewrite Ha
    | _ ≠ [] => unfold cLongArray; destruct (elems _) eqn:E; [done|]
    end;
    unfold bind, ret, lift;
    lazymatch goal with
    | |- context [ccall X ?c ?s] =>
        exists c; unfold ccall; destruct (native X c (world s)) as [[] w]; done
    end.
Qed.

(** C5 (amended).  For each of the writable kinds, with a querier bound to a
    live Feature, a Field of the kind that corresponds to T and a value of
    type T whose marshalling to C returns (a byte slice or an int64 list
    that is not empty; for the other list kinds, a helper that returns):
    [SetValue] returns a nil error after the native write to the slot of the
    field and one native query [OGR_F_IsFieldSet]; it leaves index, name and
    kind of the Field, caches the value, and sets [isSet] to what that query
    answered; afterwards [GetValue] on this Field returns the value in any
    state and whatever the querier is bound to, and changes nothing (so it
    makes no native call). *)
Theorem SetValue_then_GetValue st f fld v T :
  f_handle (feats st !!! f) ≠ nilH →
  kind_type (ftype fld) = Some T → dyn_type v = Some T → marshals X v →
  ∃ wr fld',
    let h := f_handle (feats st !!! f) in
    let q := OGR_F_IsFieldSet h (wrap32 (index fld)) in
    let st1 := (ccall X wr st).2 in
    written_slot wr = Some (h, wrap32 (index fld)) ∧
    SetValue X (NewFieldValueQuerier T (Some f)) fld v st =
      (Ok (fld', None), (ccall X q st1).2) ∧
    fld' = {| index := index fld; name := name fld;
              isSet := negb (bool_decide ((native X q (world st1)).1 = 0));
              ftype := ftype fld; val := v |} ∧
    ∀ src st2,
      GetValue X (NewFieldValueQuerier T src) fld' st2 = (Ok (v, None), st2).
Proof.
  intros HL HK HV HM.
  destruct (write_field_writes (f_handle (feats st !!! f)) fld v T st HK HV HM)
    as (wr & HS & HW).
  exists wr. eexists. cbn zeta. split; [exact HS|]. split; [|split; [reflexivity|]].
  - unfold SetValue. cbn [srcFeature NewFieldValueQuerier].
    unfold bind at 1. unfold load_feat at 1.
    rewrite bool_decide_eq_false_2 by done.
    unfold bind at 1. rewrite HW.
    set (s1 := (ccall X wr st).2). unfold bind, ret, ccall.
    by destruct (native X (OGR_F_IsFieldSet _ _) _) as [r w].
  - intros src st2. rewrite GetValue_spec. cbn [val].
    by rewrite bool_decide_eq_true_2.
Qed.

(** C10. [GetValue] depends only on its Field argument.  For every Field,
    type parameter and state: the result of [GetValue] is the same whatever
    the querier is bound to (nil, a closed Feature or a live one), and the
    state is left as it is; [SetValue] returns the error "source feature is
    nil" when the querier is bound to nil and "invalid source feature,
    probably closed" when the handle of its Feature is nil, leaving the Field
    and the state untouched; and once the Feature is closed through any
    pointer to it, [SetValue] fails so while [GetValue] still returns what it
    returned before. *)
Theorem GetValue_ignores_the_feature fld T st :
  (∀ src1 src2, GetValue X (NewFieldValueQuerier T src1) fld st =
                GetValue X (NewFieldValueQuerier T src2) fld st) ∧
  (∀ src, (GetValue X (NewFieldValueQuerier T src) fld st).2 = st) ∧
  (∀ v, SetValue X (NewFieldValueQuerier T None) fld v st =
        (Ok (fld, Some "source feature is nil"), st)) ∧
  (∀ f v, f_handle (feats st !!! f) = nilH →
     SetValue X (NewFieldValueQuerier T (Some f)) fld v st =
       (Ok (fld, Some "invalid source feature, probably closed"), st)) ∧
  (∀ f v, ∃ st1, Feature_Close X f st = (Ok (), st1) ∧
     SetValue X (NewFieldValueQuerier T (Some f)) fld v st1 =
       (Ok (fld, Some "invalid source feature, probably closed"), st1) ∧
     (GetValue X (NewFieldValueQuerier T (Some f)) fld st1).1 =
       (GetValue X (NewFieldValueQuerier T (Some f)) fld st).1).
Proof.
  assert (HC : ∀ (s : GoState X) f v, f_handle (feats s !!! f) = nilH →
     SetValue X (NewFieldValueQuerier T (Some f)) fld v s =
       (Ok (fld, Some "invalid source feature, probably closed"), s)).
  { intros s f v H. unfold SetValue. cbn. go_unfold. by rewrite H. }
  split; [|split; [|split; [|split]]].
  - intros src1 src2. by rewrite !GetValue_spec.
  - intros src. rewrite GetValue_spec. by destruct (bool_decide _).
  - done.
  - intros f v. apply HC.
  - intros f v. destruct (Feature_Close_result X st f) as (st1 & H1 & H2).
    exists st1. split; [done|]. split; [by apply HC|].
    rewrite !GetValue_spec. by destruct (bool_decide _).
Qed.

(** C8 (the code at the failing inputs).  [NewGeometryFromWKB] on an empty or
    nil byte slice, and [SetValue] of an empty byte slice into a Binary field
    through a querier bound to a live Feature, end in a run-time panic (index
    out of range), before any native call. *)
Theorem empty_bytes_panic st sr f fld :
  NewGeometryFromWKB X (Some []) sr st = (Panic index_out_of_range_0, st) ∧
  NewGeometryFromWKB X None sr st = (Panic index_out_of_range_0, st) ∧
  (f_handle (feats st !!! f) ≠ nilH → ftype fld = FTBinary →
   SetValue X (NewFieldValueQuerier TBytes (Some f)) fld (VBytes (Some [])) st =
     (Panic index_out_of_range_0, st)).
Proof.
  split; [done|]. split; [done|]. intros HL HK.
  unfold SetValue, write_field. cbn [srcFeature NewFieldValueQuerier].
  go_unfold. rewrite bool_decide_eq_false_2 by done. by rewrite HK.
Qed.




End Typed.

Section Rasterize.
Context (X : Outside).
Implicit Types (st : GoState X).

Lemma len_elems {A} (s : slice A) : len s = Z.of_nat (length (elems s)).
Proof. by destruct s. Qed.

(** C7. Burn-value arity precheck.  With the bands defaulting to all the
    bands of the dataset, the values defaulting to zeros and a single value
    replicated to all the bands: when the number of burn values then differs
    from the number of target bands, [RasterizeGeometry] returns the error
    "must pass in same number of values as bands", and up to that return it
    has made no native call other than, at most, the query of the bands of
    the dataset; [godalRasterizeGeometry] is not called. *)
Theorem burn_arity_checked_first st ds g opts :
  let nb := length (native X (Dataset_Bands (cHandle ds)) (world st)).1 in
  length (planned_values nb (given_opts opts)) ≠
    length (planned_bands nb (given_opts opts)) →
  ∃ st', Dataset_RasterizeGeometry X ds g opts st =
           (Ok (Some "must pass in same number of values as bands"), st') ∧
         (calls st' = calls st ∨
          calls st' = Dataset_Bands (cHandle ds) :: calls st).
Proof.
  intros nb H. unfold Dataset_RasterizeGeometry, rasterize_defaults.
  change (fold_left _ opts _) with (given_opts opts).
  set (o := given_opts opts) in *.
  unfold planned_values in H.
  destruct (elems (values o)) as [|v1 [|v2 vs]] eqn:EV;
    [by rewrite length_replicate in H..|].
  assert (HV0 : bool_decide (len (values o) = 0) = false).
  { apply bool_decide_eq_false_2. rewrite len_elems, EV. cbn. lia. }
  assert (HV1 : bool_decide (len (values o) = 1) = false).
  { apply bool_decide_eq_false_2. rewrite len_elems, EV. cbn. lia. }
  unfold planned_bands in H.
  destruct (bool_decide (len (bands o) = 0)) eqn:EB.
  - apply bool_decide_eq_true in EB. rewrite len_elems in EB.
    destruct (elems (bands o)) eqn:EE; [|cbn in EB; lia].
    rewrite length_map, length_seq in H. subst nb.
    destruct (native X (Dataset_Bands (cHandle ds)) (world st)) as [bnds w] eqn:N.
    cbn [fst] in H.
    unfold bind at 1 2 3. unfold ccall. rewrite N. unfold ret at 1 2.
    rewrite HV0, HV1. cbn [andb values bands].
    rewrite bool_decide_eq_false_2.
    + eexists. split; [reflexivity|]. by right.
    + rewrite len_elems, EV. cbn [len]. rewrite length_map, length_seq.
      cbn [length] in *. lia.
  - apply bool_decide_eq_false in EB. rewrite len_elems in EB.
    destruct (elems (bands o)) as [|b bs] eqn:EE; [done|].
    unfold bind at 1 2. unfold ret at 1 2.
    rewrite HV0, HV1. cbn [andb values bands].
    rewrite bool_decide_eq_false_2.
    + eexists. split; [reflexivity|]. by left.
    + rewrite !len_elems, EV, EE. cbn [length] in *. lia.
Qed.
End Rasterize.

(** An int written to the Int field of feature 7. *)
Lemma SetValue_then_GetValue_witness :
  ∃ wr fld',
    let h := f_handle (feats Demo.s0 !!! 0%nat) in
    let q := OGR_F_IsFieldSet h (wrap32 (index Demo.intField)) in
    let st1 := (ccall RefLib.lib wr Demo.s0).2 in
    written_slot wr = Some (h, wrap32 (index Demo.intField)) ∧
    SetValue RefLib.lib (NewFieldValueQuerier TInt (Some 0%nat)) Demo.intField
        (VInt 5) Demo.s0 =
      (Ok (fld', None), (ccall RefLib.lib q st1).2) ∧
    fld' = {| index := index Demo.intField; name := name Demo.intField;
              isSet := negb (bool_decide ((native RefLib.lib q (world st1)).1 = 0));
              ftype := ftype Demo.intField; val := VInt 5 |} ∧
    ∀ src st2,
      GetValue RefLib.lib (NewFieldValueQuerier TInt src) fld' st2 =
        (Ok (VInt 5, None), st2).
Proof.
  apply (SetValue_then_GetValue RefLib.lib Demo.s0 0%nat Demo.intField (VInt 5) TInt).
  - vm_compute. lia.
  - reflexivity.
  - reflexivity.
  - simpl. exact I.
Defined.

(** C5, as stated, fails on [isSet]: [SetValue] returns a nil error and
    caches the value, and [isSet] stays false when the native feature does
    not report the slot as set.  Here: the Int field of a snapshot of feature
    7 written through a querier bound to feature 8, which is live and has no
    such slot; and a time of the year 40000 written to the DateTime field of
    feature 7, a year the native side does not store. *)
Lemma SetValue_can_leave_isSet_false :
  f_handle (feats Demo.s0 !!! 2%nat) ≠ nilH ∧
  (SetValue RefLib.lib (NewFieldValueQuerier TInt (Some 2%nat)) Demo.intField
     (VInt 5) Demo.s0).1 =
    Ok ({| index := 0; name := "intCol"; isSet := false; ftype := FTInt;
           val := VInt 5 |}, None) ∧
  (SetValue RefLib.lib (NewFieldValueQuerier TTime (Some 0%nat)) Demo.dateField
     (VTime Demo.year_40000) Demo.s0).1 =
    Ok ({| index := 1; name := "dateCol"; isSet := false; ftype := FTDateTime;
           val := VTime Demo.year_40000 |}, None).
Proof. split; [vm_compute; lia|]. split; vm_compute; reflexivity. Qed.

(** The zero-valued Feature (Go object 1) behind a querier. *)
Lemma GetValue_ignores_the_feature_witness :
  SetValue RefLib.lib (NewFieldValueQuerier TInt (Some 1%nat)) Demo.intField
      (VInt 5) Demo.s0 =
    (Ok (Demo.intField, Some "invalid source feature, probably closed"), Demo.s0).
Proof.
  apply (proj1 (proj2 (proj2 (proj2
           (GetValue_ignores_the_feature RefLib.lib Demo.intField TInt Demo.s0))))
           1%nat (VInt 5)).
  vm_compute. reflexivity.
Defined.

(** An empty byte slice for the Binary field of feature 7. *)
Lemma empty_bytes_panic_witness :
  SetValue RefLib.lib (NewFieldValueQuerier TBytes (Some 0%nat)) Demo.binField
      (VBytes (Some [])) Demo.s0 =
    (Panic index_out_of_range_0, Demo.s0).
Proof.
  apply (proj2 (proj2 (empty_bytes_panic RefLib.lib Demo.s0 None 0%nat Demo.binField))).
  - vm_compute. lia.
  - reflexivity.
Defined.


(** Against the reference library the written date and clock come back, in
    UTC and without the nanoseconds. *)
Example y2k_comes_back_in_utc :
  Demo.write_then_reread Demo.y2k =
    Ok (None, VTime {| t_year := 2000; t_month := 1; t_day := 1; t_hour := 0;
                       t_minute := 0; t_second := 0; t_nsec := 0; t_loc := UTC |}).
Proof. vm_compute. reflexivity. Qed.


(** Three bands and two burn values. *)
Lemma burn_arity_checked_first_witness :
  ∃ st', Dataset_RasterizeGeometry RefLib.lib Demo.ds3 0%nat
           [Demo.Bands [0; 1; 2]; Demo.Values [Demo.one; Demo.two]] Demo.s0 =
           (Ok (Some "must pass in same number of values as bands"), st') ∧
         (calls st' = calls Demo.s0 ∨
          calls st' = Dataset_Bands (cHandle Demo.ds3) :: calls Demo.s0).
Proof.
  apply (burn_arity_checked_first RefLib.lib Demo.s0 Demo.ds3 0%nat
           [Demo.Bands [0; 1; 2]; Demo.Values [Demo.one; Demo.two]]).
  vm_compute. lia.
Defined.

(** * Further properties of the code *)

Section Geometries.
Context (X : Outside).
Implicit Types (st : GoState X) (g f p : loc).

Lemma other_is_empty_spec (other : option loc) st :
  other_is_empty X other st =
    (Ok (match other with
         | None => true
         | Some q => bool_decide (g_handle (geoms st !!! q) = nilH)
         end), st).
Proof. by destruct other. Qed.

(** [Difference] and [Union] refuse an [other] that is nil or whose handle is
    nil: they return no Geometry and the error "other geometry is empty", and
    leave the state as it is, so that no native call is made. *)
Theorem empty_other_is_refused st g (other : option loc) :
  match other with
  | None => True
  | Some q => g_handle (geoms st !!! q) = nilH
  end →
  Geometry_Difference X g other st =
    (Ok (None, Some "other geometry is empty"), st) ∧
  Geometry_Union X g other st =
    (Ok (None, Some "other geometry is empty"), st).
Proof.
  intros H. split; [unfold Geometry_Difference | unfold Geometry_Union];
    unfold bind at 1; rewrite other_is_empty_spec;
    (destruct other as [q|]; [rewrite bool_decide_eq_true_2 by done|]); done.
Qed.

Lemma wrap_geometry_shape owned (r : Handle * list ErrorEvent) st res st' :
  wrap_geometry X owned r st = (Ok res, st') →
  (∃ p, res = (Some p, None) ∧ geoms st !! p = None ∧
        geoms st' = <[p := {| isOwned := owned; g_handle := r.1 |}]> (geoms st) ∧
        feats st' = feats st ∧ calls st' = calls st) ∨
  (∃ err, res = (None, Some err) ∧ st' = st).
Proof.
  unfold wrap_geometry. destruct (cgc_close r.2) as [err|]; go_unfold.
  - intros [= <- <-]. right. eauto.
  - intros [= <- <-]. left. eexists. split; [done|]. cbn. split; [|done].
    apply not_elem_of_dom. apply is_fresh.
Qed.

(** Naming the result of the native call of a maker and applying
    [wrap_geometry_shape]. *)
Ltac made H :=
  let r := fresh "r" in let w' := fresh "w" in let p := fresh "p" in
  let err := fresh "err" in
  let Hp := fresh "Hp" in let Hg := fresh "Hg" in let Hf := fresh "Hf" in
  match type of H with
  | context [native X ?c ?w] => destruct (native X c w) as [r w']
  end;
  apply wrap_geometry_shape in H as [(p & -> & Hp & Hg & Hf & _) | (err & -> & ->)];
  [left; exists p, r.1; cbn in *; rewrite Hg; split; [done|]; split; [done|];
   split; [by rewrite lookup_total_insert_eq|]; split; [|done];
   let q' := fresh "q" in let G := fresh "G" in let HG := fresh "HG" in
   intros q' G HG; rewrite lookup_insert_ne; [done|congruence]
  |right; exists err; done].

(** What [Simplify], [Buffer], [Difference], [Union] and [NewGeometryFromWKB]
    return, when they return: either a Geometry and a nil error, or no
    Geometry and an error, never both and never neither.  The Geometry is a
    new Go object, tagged owned, and every Geometry and Feature object that
    existed before is as it was; with an error, no Go object is created or
    changed. *)
Theorem made_geometry_is_owned (m : GeometryMaker) g st res st' :
  make_geometry X m g st = (Ok res, st') →
  (∃ p h, res = (Some p, None) ∧ geoms st !! p = None ∧
          geoms st' !!! p = {| isOwned := true; g_handle := h |} ∧
          (∀ q G, geoms st !! q = Some G → geoms st' !! q = Some G) ∧
          feats st' = feats st) ∨
  (∃ err, res = (None, Some err) ∧ geoms st' = geoms st ∧ feats st' = feats st).
Proof.
  destruct m; cbn [make_geometry].
  - unfold Geometry_Simplify. unfold bind at 1 2. unfold load_geom, ccall.
    intros H. made H.
  - unfold Geometry_Buffer. unfold bind at 1 2. unfold load_geom, ccall.
    intros H. made H.
  - unfold Geometry_Difference. unfold bind at 1. rewrite other_is_empty_spec.
    destruct other as [q|]; [destruct (bool_decide _)|].
    + go_unfold. intros [= <- <-]. right. eauto.
    + unfold deref_geom. unfold bind at 1 2 3. unfold load_geom, ccall.
      intros H. made H.
    + go_unfold. intros [= <- <-]. right. eauto.
  - unfold Geometry_Union. unfold bind at 1. rewrite other_is_empty_spec.
    destruct other as [q|]; [destruct (bool_decide _)|].
    + go_unfold. intros [= <- <-]. right. eauto.
    + unfold deref_geom. unfold bind at 1 2 3. unfold load_geom, ccall.
      intros H. made H.
    + go_unfold. intros [= <- <-]. right. eauto.
  - unfold NewGeometryFromWKB. destruct (elems wkb); [done|].
    unfold bind at 1. unfold ccall. intros H. made H.
Qed.

(** The first [Close] of an owned Geometry with a live handle makes exactly
    one native call, [OGR_G_DestroyGeometry] on that handle, and the first
    [Close] of a live Feature exactly one, [OGR_F_Destroy] on its handle;
    after it the local handle is nil and no other Go object has changed. *)
Theorem first_close_destroys_once st g f :
  (isOwned (geoms st !!! g) = true → g_handle (geoms st !!! g) ≠ nilH →
   ∃ st', Geometry_Close X g st = (Ok (), st') ∧
     calls st' = OGR_G_DestroyGeometry (g_handle (geoms st !!! g)) :: calls st ∧
     geoms st' = <[g := {| isOwned := true; g_handle := nilH |}]> (geoms st) ∧
     feats st' = feats st) ∧
  (f_handle (feats st !!! f) ≠ nilH →
   ∃ st', Feature_Close X f st = (Ok (), st') ∧
     calls st' = OGR_F_Destroy (f_handle (feats st !!! f)) :: calls st ∧
     feats st' = <[f := {| f_handle := nilH |}]> (feats st) ∧
     geoms st' = geoms st).
Proof.
  split.
  - intros HO HL. unfold Geometry_Close. go_unfold. rewrite HO.
    rewrite bool_decide_eq_false_2 by done.
    destruct (native X _ (world st)) as [[] w]. cbn. eauto.
  - intros HL. unfold Feature_Close. go_unfold.
    rewrite bool_decide_eq_false_2 by done.
    destruct (native X _ (world st)) as [[] w]. cbn. eauto.
Qed.
End Geometries.

Section MoreSnapshots.
Context (X : Outside).
Implicit Types (st : GoState X) (f : loc) (h : Handle) (fld : Field).

Lemma snapshot_loop_indices h n fid st l st' :
  snapshot_loop X h n fid st = (Ok l, st') →
  length l = n ∧ ∀ i fld, l !! i = Some fld → index fld = fid + Z.of_nat i.
Proof.
  revert fid st l st'. induction n as [|n IH]; intros fid st l st'; cbn.
  - go_unfold. intros [= <- <-]. split; [done|]. intros i fld. by rewrite lookup_nil.
  - unfold bind at 1.
    destruct (snapshot_field X h fid st) as [[fld0|msg] s1] eqn:F; [|done].
    unfold bind at 1.
    destruct (snapshot_loop X h n (fid + 1) s1) as [[rest|msg] s2] eqn:L; [|done].
    go_unfold. intros [= <- <-].
    apply snapshot_field_spec in F as (F & _). apply IH in L as (L1 & L2).
    split; [cbn; by rewrite L1|].
    intros [|i] fld; cbn.
    + intros [= <-]. lia.
    + intros Hi. apply L2 in Hi. lia.
Qed.

Lemma Feature_Fields_loop f st l :
  (Feature_Fields X f st).1 = Ok (Some l) →
  let h := f_handle (feats st !!! f) in
  let n := (native X (OGR_F_GetFieldCount h) (world st)).1 in
  0 < n ∧ ∃ s1 s2, snapshot_loop X h (Z.to_nat n) 0 s1 = (Ok l, s2).
Proof.
  unfold Feature_Fields. unfold bind at 1 2. unfold load_feat, ccall.
  destruct (native X _ (world st)) as [n w]. cbn [fst].
  case_bool_decide as E0; [done|]. case_bool_decide as E1; [done|].
  unfold bind.
  destruct (snapshot_loop X _ _ _ _) as [[l'|msg] s2] eqn:L; [|done].
  cbn. intros [= ->]. split; [lia|]. eauto.
Qed.

(** A snapshot that is not nil has one entry per attribute slot of the
    feature, in the order of the slots: its length is the field count the
    native side reported, which is positive, and the entry at position [i]
    has index [i]. *)
Theorem Fields_one_entry_per_slot f st l :
  (Feature_Fields X f st).1 = Ok (Some l) →
  let n := (native X (OGR_F_GetFieldCount (f_handle (feats st !!! f))) (world st)).1 in
  0 < n ∧ Z.of_nat (length l) = n ∧
  ∀ i fld, l !! i = Some fld → index fld = Z.of_nat i.
Proof.
  intros H. apply Feature_Fields_loop in H as (Hn & s1 & s2 & L).
  apply snapshot_loop_indices in L as (L1 & L2).
  split; [done|]. split; [lia|].
  intros i fld Hi. apply L2 in Hi. lia.
Qed.

Lemma find_by_position (l : list Field) off i fld :
  (∀ j x, l !! j = Some x → index x = off + Z.of_nat j) →
  l !! i = Some fld →
  find (λ x, bool_decide (index x = off + Z.of_nat i)) l = Some fld.
Proof.
  revert off i. induction l as [|y l IH]; intros off i H Hi; [done|].
  cbn. destruct i as [|i]; cbn in Hi.
  - injection Hi as ->. rewrite bool_decide_eq_true_2; [done|].
    by apply (H 0%nat).
  - rewrite bool_decide_eq_false_2.
    + replace (off + Z.of_nat (S i)) with ((off + 1) + Z.of_nat i) by lia.
      apply IH; [|done]. intros j x Hj. specialize (H (S j) x Hj). lia.
    + specialize (H 0%nat y eq_refl). lia.
Qed.

(** [GetByIndex] finds the entries of a snapshot returned by [Fields] by
    position: for the entry [fld] at position [i] it returns [fld] with a
    nil error; for an index that is negative or not below the length it
    returns no Field and the error "field not found". *)
Theorem GetByIndex_of_snapshot f st l :
  (Feature_Fields X f st).1 = Ok (Some l) →
  (∀ i fld, l !! i = Some fld →
     Fields_GetByIndex (Some l) (Z.of_nat i) = (Some fld, None)) ∧
  (∀ k, k < 0 ∨ Z.of_nat (length l) ≤ k →
     Fields_GetByIndex (Some l) k = (None, Some "field not found")).
Proof.
  intros H. apply Feature_Fields_loop in H as (_ & s1 & s2 & L).
  apply snapshot_loop_indices in L as (_ & H).
  split.
  - intros i fld Hi. unfold Fields_GetByIndex. cbn [elems].
    assert (Hf := find_by_position l 0 i fld).
    change (0 + Z.of_nat i) with (Z.of_nat i) in Hf.
    rewrite Hf; [done| |done]. intros j x Hj. rewrite (H j x Hj). lia.
  - intros k Hk. unfold Fields_GetByIndex. cbn [elems].
    destruct (find _ l) as [x|] eqn:Fd; [|done].
    apply find_some in Fd as (Hin & Hx). apply bool_decide_eq_true in Hx.
    apply list_elem_of_In, list_elem_of_lookup in Hin as (j & Hj).
    pose proof (lookup_lt_Some _ _ _ Hj). rewrite (H j x Hj) in Hx. lia.
Qed.

(** [GetByName] and [GetByIndex] on any Fields return the first entry with
    the name (the index) asked for, with a nil error, and return no Field and
    the error "field not found" exactly when no entry has it. *)
Theorem Fields_lookup_first_match (flds : Fields) nm k :
  match Fields_GetByName flds nm with
  | (Some fld, None) =>
      ∃ before after, elems flds = (before ++ fld :: after)%list ∧ name fld = nm ∧
                      Forall (λ x, name x ≠ nm) before
  | (None, Some err) =>
      err = "field not found" ∧ Forall (λ x, name x ≠ nm) (elems flds)
  | _ => False
  end ∧
  match Fields_GetByIndex flds k with
  | (Some fld, None) =>
      ∃ before after, elems flds = (before ++ fld :: after)%list ∧ index fld = k ∧
                      Forall (λ x, index x ≠ k) before
  | (None, Some err) =>
      err = "field not found" ∧ Forall (λ x, index x ≠ k) (elems flds)
  | _ => False
  end.
Proof.
  assert (G : ∀ (P : Field → Prop) `{∀ x, Decision (P x)} (l : list Field),
    match find (λ x, bool_decide (P x)) l with
    | Some fld => ∃ before after, l = (before ++ fld :: after)%list ∧ P fld ∧
                                  Forall (λ x, ¬ P x) before
    | None => Forall (λ x, ¬ P x) l
    end).
  { intros P ? l. induction l as [|y l IH]; cbn; [constructor|].
    case_bool_decide as E.
    - exists [], l. by repeat split.
    - destruct (find _ l) as [fld|].
      + destruct IH as (b & a & -> & ? & ?). exists (y :: b), a.
        repeat split; [done|]. by constructor.
      + by constructor. }
  split.
  - unfold Fields_GetByName.
    specialize (G (λ x, name x = nm) _ (elems flds)).
    destruct (find _ (elems flds)); [done|]. by split.
  - unfold Fields_GetByIndex.
    specialize (G (λ x, index x = k) _ (elems flds)).
    destruct (find _ (elems flds)); [done|]. by split.
Qed.
End MoreSnapshots.

Section Frames.
Context (X : Outside).
Implicit Types (st : GoState X) (f : loc) (h : Handle) (fld : Field).

Lemma only_reads_refl h st : only_reads h st st.
Proof. exists []. by repeat split. Qed.

Lemma only_reads_trans h st1 st2 st3 :
  only_reads h st1 st2 → only_reads h st2 st3 → only_reads h st1 st3.
Proof.
  intros (n1 & C1 & F1 & G1 & E1) (n2 & C2 & F2 & G2 & E2).
  exists (n2 ++ n1)%list. repeat split.
  - by rewrite C2, C1, app_assoc.
  - by apply Forall_app.
  - congruence.
  - congruence.
Qed.

Lemma reader_bind {A B} h (m : Go X A) (k : A → Go X B) :
  reader h m → (∀ a, reader h (k a)) → reader h (bind m k).
Proof.
  unfold reader. intros Hm Hk st. unfold bind. specialize (Hm st).
  destruct (m st) as [[a|msg] s1]; [|done].
  eapply only_reads_trans; [exact Hm|]. apply Hk.
Qed.

Lemma reader_ret {A} h (a : A) : reader h (ret (X := X) a).
Proof. intros st. apply only_reads_refl. Qed.

Lemma reader_lift {A} h (r : Result A) : reader h (lift (X := X) r).
Proof. intros st. apply only_reads_refl. Qed.

Lemma reader_panic {A} h msg : reader h (panic (X := X) (A := A) msg).
Proof. intros st. apply only_reads_refl. Qed.

Lemma reader_ccall h c : reads_feature h c → reader h (ccall X c).
Proof.
  intros Hc st. unfold ccall. destruct (native X c (world st)) as [r w].
  exists [c]. repeat split. by constructor.
Qed.

(** Solving [reader] goals over the primitives. *)
Ltac reads :=
  repeat first
    [ apply reader_ret | apply reader_lift | apply reader_panic
    | apply reader_ccall; cbn; done
    | apply reader_bind; [|intros ?] ].

Lemma decode_field_reads h fid ty : reader h (decode_field X h fid ty).
Proof.
  destruct ty; cbn [decode_field]; unfold getFieldAsDateTime; reads.
  all: repeat match goal with
       | |- context [if ?b then _ else _] => destruct b
       | |- context [match ?o with Some _ => _ | None => _ end] => destruct o
       end; reads.
Qed.

Lemma snapshot_loop_reads h n fid : reader h (snapshot_loop X h n fid).
Proof.
  revert fid. induction n as [|n IH]; intros fid; cbn [snapshot_loop]; reads.
  - unfold snapshot_field. reads. apply decode_field_reads.
  - apply IH.
Qed.

(** [Fields] only reads: whatever its outcome, every native call it makes is
    a read of a slot of its own feature or of a field definition, and no Go
    object is created or changed. *)
Theorem Fields_only_reads f st :
  only_reads (f_handle (feats st !!! f)) st (Feature_Fields X f st).2.
Proof.
  unfold Feature_Fields. unfold bind at 1. unfold load_feat at 1.
  generalize (f_handle (feats st !!! f)). intros h. revert st.
  change (reader h (fcount <- ccall X (OGR_F_GetFieldCount h) ;;
                    if bool_decide (fcount = 0) then ret None
                    else if bool_decide (fcount < 0)
                         then panic "makeslice: len out of range"
                         else l <- snapshot_loop X h (Z.to_nat fcount) 0 ;;
                              ret (Some l))).
  reads. repeat case_bool_decide; reads. apply snapshot_loop_reads.
Qed.

Lemma write_field_outcome h fld v st e st' :
  write_field X h fld v st = (Ok e, st') →
  match e with
  | None => dyn_type v = kind_type (ftype fld)
  | Some _ => st' = st
  end.
Proof.
  unfold write_field.
  destruct (ftype fld), v; go_unfold;
    try (intros [= <- <-]; reflexivity);
    repeat match goal with
    | |- context [match ?r with Ok _ => _ | Panic _ => _ end] => destruct r
    | |- context [match elems ?b with [] => _ | _ :: _ => _ end] => destruct (elems b)
    | |- context [native X ?c ?w] => destruct (native X c w) as [[] ?]
    end;
    try (intros [= <- <-]; reflexivity); try (intros [=]).
Qed.

(** What [SetValue] leaves behind when it returns.  With a nil error the
    Field keeps its index, name and kind, holds the value, and the type of
    the value is the one its kind corresponds to.  With an error the Field
    and the whole state are as before the call: nothing was written to the
    native feature. *)
Theorem SetValue_outcome (q : FieldValueQuerier) fld v st fld' e st' :
  SetValue X q fld v st = (Ok (fld', e), st') →
  match e with
  | None => well_typed fld' ∧ val fld' = v ∧ index fld' = index fld ∧
            name fld' = name fld ∧ ftype fld' = ftype fld
  | Some _ => fld' = fld ∧ st' = st
  end.
Proof.
  unfold SetValue. destruct (srcFeature q) as [f|].
  - unfold bind at 1. unfold load_feat at 1. case_bool_decide as EH.
    + go_unfold. by intros [= <- <- <-].
    + unfold bind at 1.
      destruct (write_field X _ fld v st) as [[e0|msg] s1] eqn:W; [|done].
      apply write_field_outcome in W. destruct e0 as [err|].
      * go_unfold. subst s1. by intros [= <- <- <-].
      * go_unfold. destruct (native X _ (world s1)) as [r w].
        intros [= <- <- <-]. by repeat split.
  - go_unfold. by intros [= <- <- <-].
Qed.
End Frames.

Section Arrays.

Lemma prefix_cells {A} (d : A) (mem pre : list A) n :
  (n ≤ length mem)%nat →
  map (λ i, default d ((pre ++ mem)%list !! i)) (seq (length pre) n) = take n mem.
Proof.
  revert pre mem. induction n as [|n IH]; intros pre mem Hn; [done|].
  destruct mem as [|y mem]; [cbn in Hn; lia|]. cbn [seq map take].
  rewrite list_lookup_middle by done. cbn. f_equal.
  specialize (IH (pre ++ [y])%list mem).
  rewrite length_app, <- app_assoc in IH. cbn in IH.
  replace (length pre + 1)%nat with (S (length pre)) in IH by lia.
  apply IH. cbn in Hn. lia.
Qed.

Lemma carray_prefix_take {A} (d : A) (mem : list A) n :
  0 ≤ n ≤ 2 ^ 28 → (Z.to_nat n ≤ length mem)%nat →
  carray_prefix d mem n = Ok (Some (take (Z.to_nat n) mem)).
Proof.
  intros Hn Hm. unfold carray_prefix.
  rewrite bool_decide_eq_false_2 by lia.
  by rewrite <- (prefix_cells d mem [] (Z.to_nat n) Hm).
Qed.

(** The three conversions of a C array to a slice: a NULL pointer gives the
    nil slice whatever the length; a negative length panics; and a length
    within the array and the bound 2^28 gives the first [length] cells, in
    order. *)
Theorem c_array_to_slice (ints : list Z) (doubles : list float64) n :
  (cIntArrayToSlice None n = Ok None ∧ cLongArrayToSlice None n = Ok None ∧
   cDoubleArrayToSlice None n = Ok None) ∧
  (n < 0 →
   cIntArrayToSlice (Some ints) n = Panic "slice bounds out of range" ∧
   cLongArrayToSlice (Some ints) n = Panic "slice bounds out of range" ∧
   cDoubleArrayToSlice (Some doubles) n = Panic "slice bounds out of range") ∧
  (0 ≤ n ≤ 2 ^ 28 →
   ((Z.to_nat n ≤ length ints)%nat →
    cIntArrayToSlice (Some ints) n = Ok (Some (take (Z.to_nat n) ints)) ∧
    cLongArrayToSlice (Some ints) n = Ok (Some (take (Z.to_nat n) ints))) ∧
   ((Z.to_nat n ≤ length doubles)%nat →
    cDoubleArrayToSlice (Some doubles) n = Ok (Some (take (Z.to_nat n) doubles)))).
Proof.
  split; [done|]. split.
  - intros Hn. unfold cIntArrayToSlice, cLongArrayToSlice, cDoubleArrayToSlice,
      carray_prefix. rewrite !bool_decide_eq_true_2 by lia. done.
  - intros Hn. split; intros Hm; cbn; rewrite ?carray_prefix_take by done; done.
Qed.

(** An int64 list that is not empty and not longer than 2^28 survives the
    way to C and back: [cLongArray] yields its elements, and
    [cLongArrayToSlice] of that array and its length yields the list. *)
Theorem int64_list_round_trip (l : slice Z) :
  elems l ≠ [] → len l ≤ 2 ^ 28 →
  ∃ arr, cLongArray l = Ok arr ∧
         cLongArrayToSlice (Some arr) (len l) = Ok (Some (elems l)).
Proof.
  intros Hne Hlen. exists (elems l). split.
  - unfold cLongArray. by destruct (elems l).
  - cbn. rewrite len_elems in *. rewrite carray_prefix_take by lia.
    by rewrite Nat2Z.id, firstn_all.
Qed.
End Arrays.

Section Burn.
Context (X : Outside).
Implicit Types (st : GoState X).

Lemma append_first_replicate n (v : float64) vs :
  append_first n (v :: vs) = ((v :: vs) ++ replicate n v)%list.
Proof.
  revert vs. induction n as [|n IH]; intros vs; cbn [append_first replicate].
  - by rewrite app_nil_r.
  - change (append_first n (v :: (vs ++ [v])%list) =
            (v :: vs ++ v :: replicate n v)%list).
    rewrite (IH (vs ++ [v])%list). cbn. by rewrite <- app_assoc.
Qed.

Lemma values_step (vo : slice float64) (bs : list Z) :
  let vs := if bool_decide (len vo = 0)
            then Some (replicate (Z.to_nat (len (Some bs))) float_zero)
            else vo in
  let vs' := if bool_decide (len vs = 1) && negb (bool_decide (len vs = len (Some bs)))
             then Some (append_first (Z.to_nat (len (Some bs) - 1)) (elems vs))
             else vs in
  (bs ≠ [] →
   vs' = Some match elems vo with
              | [] => replicate (length bs) float_zero
              | [v] => replicate (length bs) v
              | l => l
              end) ∧
  (bs = [] → elems vs' = elems vo).
Proof.
  cbn zeta. cbn [len]. rewrite Nat2Z.id.
  assert (R : ∀ z : Z, bool_decide (z = z) = true) by (intros; by apply bool_decide_eq_true_2).
  destruct vo as [[|v1 [|v2 l]]|]; cbn [len elems length].
  - rewrite R. cbn [len]. rewrite length_replicate, R, andb_false_r.
    split; [done|]. by intros ->.
  - rewrite (bool_decide_eq_false_2 (Z.of_nat 1 = 0)) by done.
    cbn [len length]. rewrite (bool_decide_eq_true_2 (Z.of_nat 1 = 1)) by done.
    cbn [andb elems]. case_bool_decide as E1; cbn [negb].
    + assert (length bs = 1%nat) as -> by lia. split; [done|]. done.
    + rewrite append_first_replicate. cbn [app]. split.
      * intros Hne. destruct bs as [|b bs']; [done|]. cbn [length].
        replace (Z.to_nat (Z.of_nat (S (length bs')) - 1)) with (length bs') by lia.
        done.
      * by intros ->.
  - rewrite (bool_decide_eq_false_2 (Z.of_nat _ = 0)) by lia.
    cbn [len length]. rewrite (bool_decide_eq_false_2 (Z.of_nat _ = 1)) by lia. done.
  - rewrite R. cbn [len]. rewrite length_replicate, R, andb_false_r.
    split; [done|]. by intros ->.
Qed.

Lemma rasterize_defaults_spec st ds opts :
  let o := given_opts opts in
  let nb := length (native X (Dataset_Bands (cHandle ds)) (world st)).1 in
  ∃ opt,
    rasterize_defaults X ds opts st =
      (Ok opt, if bool_decide (elems (bands o) = [])
               then (ccall X (Dataset_Bands (cHandle ds)) st).2 else st) ∧
    elems (bands opt) = planned_bands nb o ∧
    allTouched opt = allTouched o ∧
    (planned_bands nb o ≠ [] →
     bands opt = Some (planned_bands nb o) ∧
     values opt = Some (planned_values nb o)) ∧
    (planned_bands nb o = [] → elems (values opt) = elems (values o)).
Proof.
  intros o nb. unfold rasterize_defaults.
  change (fold_left _ opts _) with o. unfold planned_values, planned_bands.
  destruct (bool_decide (len (bands o) = 0)) eqn:EB0.
  - apply bool_decide_eq_true in EB0. rewrite len_elems in EB0.
    assert (EB : elems (bands o) = [])
      by (destruct (elems (bands o)); [done|cbn in EB0; lia]).
    rewrite (bool_decide_eq_true_2 _ EB). rewrite EB. subst nb.
    unfold bind at 1 2. unfold ccall.
    destruct (native X _ (world st)) as [bnds w]. cbn [fst snd]. unfold ret.
    eexists. split; [reflexivity|]. cbn [bands values allTouched].
    destruct (values_step (values o) (map (λ i, Z.of_nat i + 1) (seq 0 (length bnds))))
      as [V1 V2].
    split; [done|]. split; [done|]. split.
    + intros Hne. split; [done|]. by apply V1.
    + apply V2.
  - apply bool_decide_eq_false in EB0. rewrite len_elems in EB0.
    destruct (elems (bands o)) as [|b bs] eqn:EE; [done|].
    rewrite (bool_decide_eq_false_2 (b :: bs = [])) by done.
    assert (HS : bands o = Some (b :: bs)).
    { destruct (bands o) as [l'|]; [|done]. cbn in EE. by subst l'. }
    unfold bind, ret. eexists. split; [reflexivity|].
    cbn [bands values allTouched]. rewrite HS.
    destruct (values_step (values o) (b :: bs)) as [V1 _].
    split; [done|]. split; [done|]. split; [|done].
    intros Hne. split; [done|]. by apply V1.
Qed.

(** The defaulting of [RasterizeGeometry] does what its documentation says.
    It returns normally, having asked for the bands of the dataset exactly
    when no band was given; the bands it settles on are those of the
    documented plan; so are the values whenever there is at least one target
    band; and with no target band at all the values stay as given.  With at
    least one target band and at most one value given, it always ends with as
    many values as bands, so that the arity check that follows passes. *)
Theorem rasterize_defaults_follow_the_plan st ds opts :
  let o := given_opts opts in
  let nb := length (native X (Dataset_Bands (cHandle ds)) (world st)).1 in
  ∃ opt,
    rasterize_defaults X ds opts st =
      (Ok opt, if bool_decide (elems (bands o) = [])
               then (ccall X (Dataset_Bands (cHandle ds)) st).2 else st) ∧
    elems (bands opt) = planned_bands nb o ∧
    allTouched opt = allTouched o ∧
    (planned_bands nb o ≠ [] →
     bands opt = Some (planned_bands nb o) ∧
     values opt = Some (planned_values nb o)) ∧
    (planned_bands nb o = [] → elems (values opt) = elems (values o)) ∧
    (planned_bands nb o ≠ [] → (length (elems (values o)) ≤ 1)%nat →
     len (values opt) = len (bands opt)).
Proof.
  intros o nb.
  destruct (rasterize_defaults_spec st ds opts) as (opt & HD & HB & HA & HP & HE).
  exists opt. repeat (split; [done|]).
  intros Hne Hle. destruct (HP Hne) as [-> ->]. cbn [len]. f_equal.
  unfold planned_values. fold o nb.
  destruct (elems (values o)) as [|v1 [|v2 vs]];
    [by rewrite length_replicate..|cbn in Hle; lia].
Qed.

(** When the plan has at least one band and as many values as bands, and the
    two marshalling helpers return, [RasterizeGeometry] makes exactly one
    call of [godalRasterizeGeometry], after the query of the bands if no band
    was given: on the handles of the dataset and of the geometry, with the
    planned bands, their number, the planned values and the all-touched
    flag; it returns what the bridging context makes of the diagnostics of
    that call. *)
Theorem RasterizeGeometry_burns_the_plan st ds g opts cb cv :
  let o := given_opts opts in
  let nb := length (native X (Dataset_Bands (cHandle ds)) (world st)).1 in
  let st1 := if bool_decide (elems (bands o) = [])
             then (ccall X (Dataset_Bands (cHandle ds)) st).2 else st in
  let burn := godalRasterizeGeometry (cHandle ds) (g_handle (geoms st !!! g)) cb
                (wrap32 (Z.of_nat (length (planned_bands nb o)))) cv
                (wrap32 (allTouched o)) in
  planned_bands nb o ≠ [] →
  length (planned_values nb o) = length (planned_bands nb o) →
  cIntArray X (Some (planned_bands nb o)) = Ok cb →
  cDoubleArray X (Some (planned_values nb o)) = Ok cv →
  Dataset_RasterizeGeometry X ds g opts st =
    (Ok (cgc_close (native X burn (world st1)).1), (ccall X burn st1).2).
Proof.
  intros o nb st1 burn Hne Hlen Hcb Hcv. subst o nb.
  destruct (rasterize_defaults_spec st ds opts) as (opt & HD & _ & HA & HP & _).
  destruct (HP Hne) as [HB HV]. fold st1 in HD.
  unfold Dataset_RasterizeGeometry. unfold bind at 1. rewrite HD.
  rewrite HB, HV. cbn [len]. rewrite Hlen.
  rewrite bool_decide_eq_true_2 by done. cbn [negb].
  unfold bind at 1. unfold load_geom at 1.
  unfold bind at 1. unfold lift at 1. rewrite Hcb.
  unfold bind at 1. unfold lift at 1. rewrite Hcv.
  assert (HG : geoms st1 = geoms st).
  { subst st1. case_bool_decide; [|done]. unfold ccall.
    by destruct (native X _ (world st)). }
  rewrite HG, HA. fold burn. unfold bind, ret, ccall.
  by destruct (native X burn (world st1)) as [evs w].
Qed.
End Burn.

(** The zero-valued Geometry (Go object 1) as [other]. *)
Lemma empty_other_is_refused_witness :
  Geometry_Difference RefLib.lib 0%nat (Some 1%nat) Demo.s0 =
    (Ok (None, Some "other geometry is empty"), Demo.s0) ∧
  Geometry_Union RefLib.lib 0%nat (Some 1%nat) Demo.s0 =
    (Ok (None, Some "other geometry is empty"), Demo.s0).
Proof.
  apply (empty_other_is_refused RefLib.lib Demo.s0 0%nat (Some 1%nat)).
  vm_compute. reflexivity.
Defined.

(** [Buffer] on the collection (Go object 0) makes Go object 2. *)
Lemma made_geometry_is_owned_witness :
  let st' := (make_geometry RefLib.lib (MBuffer Demo.one 1) 0%nat Demo.s0).2 in
  let res : option loc * option error := (Some 2%nat, None) in
  (∃ p h, res = (Some p, None) ∧ geoms Demo.s0 !! p = None ∧
          geoms st' !!! p = {| isOwned := true; g_handle := h |} ∧
          (∀ q G, geoms Demo.s0 !! q = Some G → geoms st' !! q = Some G) ∧
          feats st' = feats Demo.s0) ∨
  (∃ err, res = (None, Some err) ∧
          geoms st' = geoms Demo.s0 ∧ feats st' = feats Demo.s0).
Proof.
  apply (made_geometry_is_owned RefLib.lib (MBuffer Demo.one 1) 0%nat Demo.s0).
  apply injective_projections; [vm_compute | simpl]; reflexivity.
Defined.

(** The collection (Go object 0, owned, handle 20) and feature 7. *)
Lemma first_close_destroys_once_witness :
  (∃ st', Geometry_Close RefLib.lib 0%nat Demo.s0 = (Ok (), st') ∧
     calls st' =
       OGR_G_DestroyGeometry (g_handle (geoms Demo.s0 !!! 0%nat)) :: calls Demo.s0 ∧
     geoms st' =
       <[0%nat := {| isOwned := true; g_handle := nilH |}]> (geoms Demo.s0) ∧
     feats st' = feats Demo.s0) ∧
  (∃ st', Feature_Close RefLib.lib 0%nat Demo.s0 = (Ok (), st') ∧
     calls st' = OGR_F_Destroy (f_handle (feats Demo.s0 !!! 0%nat)) :: calls Demo.s0 ∧
     feats st' = <[0%nat := {| f_handle := nilH |}]> (feats Demo.s0) ∧
     geoms st' = geoms Demo.s0).
Proof.
  split.
  - apply (proj1 (first_close_destroys_once RefLib.lib Demo.s0 0%nat 0%nat)).
    + vm_compute. reflexivity.
    + vm_compute. lia.
  - apply (proj2 (first_close_destroys_once RefLib.lib Demo.s0 0%nat 0%nat)).
    vm_compute. lia.
Defined.

(** The snapshot of feature 7. *)
Lemma Fields_one_entry_per_slot_witness :
  let n := (native RefLib.lib
              (OGR_F_GetFieldCount (f_handle (feats Demo.s0 !!! 0%nat)))
              (world Demo.s0)).1 in
  0 < n ∧ Z.of_nat (length (elems Demo.snapshot0)) = n ∧
  ∀ i fld, elems Demo.snapshot0 !! i = Some fld → index fld = Z.of_nat i.
Proof.
  apply (Fields_one_entry_per_slot RefLib.lib 0%nat Demo.s0 (elems Demo.snapshot0)).
  vm_compute. reflexivity.
Defined.

Lemma GetByIndex_of_snapshot_witness :
  (∀ i fld, elems Demo.snapshot0 !! i = Some fld →
     Fields_GetByIndex (Some (elems Demo.snapshot0)) (Z.of_nat i) = (Some fld, None)) ∧
  (∀ k, k < 0 ∨ Z.of_nat (length (elems Demo.snapshot0)) ≤ k →
     Fields_GetByIndex (Some (elems Demo.snapshot0)) k =
       (None, Some "field not found")).
Proof.
  apply (GetByIndex_of_snapshot RefLib.lib 0%nat Demo.s0 (elems Demo.snapshot0)).
  vm_compute. reflexivity.
Defined.

(** An int written to the Int field of feature 7, and a string refused. *)
Lemma SetValue_outcome_witness :
  (let fld' := {| index := 0; name := "intCol"; isSet := true; ftype := FTInt;
                  val := VInt 5 |} in
   well_typed fld' ∧ val fld' = VInt 5 ∧ index fld' = index Demo.intField ∧
   name fld' = name Demo.intField ∧ ftype fld' = ftype Demo.intField) ∧
  (Demo.intField = Demo.intField ∧
   (SetValue RefLib.lib (NewFieldValueQuerier TString (Some 0%nat)) Demo.intField
      (VString "five") Demo.s0).2 = Demo.s0).
Proof.
  split.
  - apply (SetValue_outcome RefLib.lib (NewFieldValueQuerier TInt (Some 0%nat))
             Demo.intField (VInt 5) Demo.s0 _ None
             (SetValue RefLib.lib (NewFieldValueQuerier TInt (Some 0%nat))
                Demo.intField (VInt 5) Demo.s0).2).
    apply injective_projections; [vm_compute | simpl]; reflexivity.
  - apply (SetValue_outcome RefLib.lib (NewFieldValueQuerier TString (Some 0%nat))
             Demo.intField (VString "five") Demo.s0 _
             (Some "value for this field must be of type 'int'")).
    apply injective_projections; [vm_compute | simpl]; reflexivity.
Defined.

(** The first two of three cells. *)
Lemma c_array_to_slice_witness :
  cIntArrayToSlice (Some [1; 2; 3]) 2 = Ok (Some (take (Z.to_nat 2) [1; 2; 3])) ∧
  cLongArrayToSlice (Some [1; 2; 3]) 2 = Ok (Some (take (Z.to_nat 2) [1; 2; 3])).
Proof.
  apply (proj1 (proj2 (proj2 (c_array_to_slice [1; 2; 3] [] 2)) ltac:(lia))).
  simpl. lia.
Defined.

Lemma int64_list_round_trip_witness :
  ∃ arr, cLongArray (Some [1; 2; 3]) = Ok arr ∧
         cLongArrayToSlice (Some arr) (len (Some [1; 2; 3])) =
           Ok (Some (elems (Some [1; 2; 3]))).
Proof.
  apply (int64_list_round_trip (Some [1; 2; 3])).
  - simpl. congruence.
  - vm_compute. congruence.
Defined.

(** One value and no band given, on the dataset with three bands. *)
Lemma rasterize_defaults_follow_the_plan_witness :
  let o := given_opts [Demo.Values [Demo.one]] in
  let nb := length (native RefLib.lib (Dataset_Bands (cHandle Demo.ds3))
                      (world Demo.s0)).1 in
  planned_bands nb o = [1; 2; 3] ∧
  planned_values nb o = [Demo.one; Demo.one; Demo.one] ∧
  ∃ opt,
    rasterize_defaults RefLib.lib Demo.ds3 [Demo.Values [Demo.one]] Demo.s0 =
      (Ok opt, if bool_decide (elems (bands o) = [])
               then (ccall RefLib.lib (Dataset_Bands (cHandle Demo.ds3)) Demo.s0).2
               else Demo.s0) ∧
    elems (bands opt) = planned_bands nb o ∧
    allTouched opt = allTouched o ∧
    (planned_bands nb o ≠ [] →
     bands opt = Some (planned_bands nb o) ∧
     values opt = Some (planned_values nb o)) ∧
    (planned_bands nb o = [] → elems (values opt) = elems (values o)) ∧
    (planned_bands nb o ≠ [] → (length (elems (values o)) ≤ 1)%nat →
     len (values opt) = len (bands opt)).
Proof.
  split; [vm_compute; reflexivity|]. split; [vm_compute; reflexivity|].
  apply (rasterize_defaults_follow_the_plan RefLib.lib Demo.s0 Demo.ds3
           [Demo.Values [Demo.one]]).
Defined.

Lemma RasterizeGeometry_burns_the_plan_witness :
  let st1 := (ccall RefLib.lib (Dataset_Bands (cHandle Demo.ds3)) Demo.s0).2 in
  let burn := godalRasterizeGeometry 3 20 [1; 2; 3] 3
                [Demo.one; Demo.one; Demo.one] 0 in
  Dataset_RasterizeGeometry RefLib.lib Demo.ds3 0%nat [Demo.Values [Demo.one]] Demo.s0 =
    (Ok (cgc_close (native RefLib.lib burn (world st1)).1),
     (ccall RefLib.lib burn st1).2).
Proof.
  apply (RasterizeGeometry_burns_the_plan RefLib.lib Demo.s0 Demo.ds3 0%nat
           [Demo.Values [Demo.one]] [1; 2; 3] [Demo.one; Demo.one; Demo.one]).
  - vm_compute. congruence.
  - vm_compute. reflexivity.
  - vm_compute. reflexivity.
  - vm_compute. reflexivity.
Defined.
